(** * A shallow embedding of the autosniper scoring and matching engine

    This file models [scoring.py] ([ScoringEngine]) and [matching.py]
    ([MatchingEngine]) and states the properties of the engine's
    specification against that model.

    Modelling conventions.
    - A Python dict describing a listing or a preference is a record whose
      fields are [option]s: [None] stands for a missing key, so
      [listing.get(k, d)] is [default d (field l)].
    - Python ints are [Z]; Python floats are modelled by exact rationals
      [Q]. The claims below only involve values where this is exact
      (dyadic fractions) or where a rounding error of one ulp cannot change
      which branch of a piecewise definition is taken.
    - [datetime.now().year] is an explicit parameter [current_year].
    - A raised exception ([ZeroDivisionError]) is [None] in an [option]
      result.
    - Year keys of the market data are the canonical decimal strings of
      the years, so [str(year)] and [int(y)] are modelled by using the year
      [Z] itself as the key.
    - Python's [str.lower] and [str.strip] are modelled on ASCII text. *)

From Stdlib Require Import ZArith QArith Qround String Ascii List Bool.
From Stdlib Require Import Sorting.Sorted Sorting.Permutation Lia Lqa.
Import ListNotations.

Open Scope Q_scope.

(** ** Python helpers *)

(** [d.get(k, d0)] once [d.get(k)] is known. *)
Definition default {A} (d0 : A) (o : option A) : A :=
  match o with Some v => v | None => d0 end.

Module Py.

(** [c.lower()] on an ASCII character. *)
Definition lower_char (c : ascii) : ascii :=
  let n := nat_of_ascii c in
  if (65 <=? n)%nat && (n <=? 90)%nat then ascii_of_nat (n + 32) else c.

(** [s.lower()]. *)
Fixpoint lower (s : string) : string :=
  match s with
  | EmptyString => EmptyString
  | String c s' => String (lower_char c) (lower s')
  end.

Definition is_space (c : ascii) : bool :=
  let n := nat_of_ascii c in
  (n =? 32)%nat || ((9 <=? n)%nat && (n <=? 13)%nat).

Fixpoint lstrip (s : string) : string :=
  match s with
  | EmptyString => EmptyString
  | String c s' => if is_space c then lstrip s' else s
  end.

Fixpoint rev_string (s : string) (acc : string) : string :=
  match s with
  | EmptyString => acc
  | String c s' => rev_string s' (String c acc)
  end.

(** [s.strip()]. *)
Definition strip (s : string) : string :=
  rev_string (lstrip (rev_string (lstrip s) EmptyString)) EmptyString.

(** [a in b] for strings: substring containment. *)
Definition contains (a b : string) : bool :=
  match String.index 0 a b with Some _ => true | None => false end.

(** Truthiness of a string: [bool(s)]. *)
Definition str_truthy (s : string) : bool := negb (String.eqb s EmptyString).

(** [d.get(k)] on a dict with string keys, kept as an association list. *)
Fixpoint lookup {V} (k : string) (d : list (string * V)) : option V :=
  match d with
  | [] => None
  | (k', v) :: d' => if String.eqb k k' then Some v else lookup k d'
  end.

(** [d.get(k)] on a dict with integer keys. *)
Fixpoint zlookup {V} (k : Z) (d : list (Z * V)) : option V :=
  match d with
  | [] => None
  | (k', v) :: d' => if Z.eqb k k' then Some v else zlookup k d'
  end.

(** [min(xs, key=f)]: the first element of least key. *)
Fixpoint min_by_from {A} (key : A -> Z) (best : A) (l : list A) : A :=
  match l with
  | [] => best
  | x :: l' => if key x <? key best then min_by_from key x l' else min_by_from key best l'
  end%Z.

Definition min_by {A} (key : A -> Z) (l : list A) : option A :=
  match l with
  | [] => None
  | x :: l' => Some (min_by_from key x l')
  end.

(** [sorted(xs, key=key, reverse=reverse)]. Python's sort is stable, also
    with [reverse=True], so its result is the unique stable ordering of
    [xs] by [key]; we compute it by stable insertion. [before y x] says
    that [y], already placed, stays in front of the later element [x]. *)
Section Sorting.
Context {A : Type} (key : A -> Q) (reverse : bool).

Definition before (y x : A) : bool :=
  if reverse then Qle_bool (key x) (key y) else Qle_bool (key y) (key x).

Fixpoint insert_stable (x : A) (l : list A) : list A :=
  match l with
  | [] => [x]
  | y :: l' => if before y x then y :: insert_stable x l' else x :: l
  end.

Definition sorted (l : list A) : list A :=
  fold_left (fun acc x => insert_stable x acc) l [].

End Sorting.

(** Python's [round(x, 1)]: round half to even at one decimal. *)
Definition round_half_even (q : Q) : Z :=
  let fl := Qfloor q in
  let frac := q - inject_Z fl in
  match Qcompare frac (1#2) with
  | Lt => fl
  | Gt => (fl + 1)%Z
  | Eq => if Z.even fl then fl else (fl + 1)%Z
  end.

Definition round1 (q : Q) : Q := inject_Z (round_half_even (q * 10)) / 10.

End Py.

(** ** Data model *)

Inductive grade := GAplus | GA | GB | GC | GD | GF.

(** [score_details] as written by [score_listing]. *)
Record score_details := mk_score_details {
  sd_price_score : Q;
  sd_mileage_score : Q;
  sd_suspicious : bool;
  sd_reasons : option (list string)
}.

(** A listing dict. *)
Record listing := mk_listing {
  l_make : option string;
  l_model : option string;
  l_year : option Z;
  l_price : option Z;
  l_mileage : option Z;
  l_location : option string;
  l_fuel_type : option string;
  l_transmission : option string;
  l_matched_to : option string;
  l_score : option Q;
  l_grade : option grade;
  l_score_details : option score_details
}.

(** [listing.copy()] with [score], [grade] and [score_details] set. *)
Definition with_score (l : listing) (s : Q) (g : grade) (d : score_details) : listing :=
  mk_listing (l_make l) (l_model l) (l_year l) (l_price l) (l_mileage l)
    (l_location l) (l_fuel_type l) (l_transmission l) (l_matched_to l)
    (Some s) (Some g) (Some d).

(** [listing.copy()] with another [price] (used to compare listings). *)
Definition with_price (l : listing) (p : Z) : listing :=
  mk_listing (l_make l) (l_model l) (l_year l) (Some p) (l_mileage l)
    (l_location l) (l_fuel_type l) (l_transmission l) (l_matched_to l)
    (l_score l) (l_grade l) (l_score_details l).

(** [listing.copy()] with another [mileage]. *)
Definition with_mileage (l : listing) (m : Z) : listing :=
  mk_listing (l_make l) (l_model l) (l_year l) (l_price l) (Some m)
    (l_location l) (l_fuel_type l) (l_transmission l) (l_matched_to l)
    (l_score l) (l_grade l) (l_score_details l).

(** The fields of a listing that scoring does not write. *)
Definition listing_data (l : listing) :=
  (l_make l, l_model l, l_year l, l_price l, l_mileage l, l_location l,
   l_fuel_type l, l_transmission l, l_matched_to l).

(** Market data: ["make_model"] key to a map from year to average price. *)
Definition market_data := list (string * list (Z * Z)).

(** ** Reference data ([scoring.py], module level) *)

(** [TYPICAL_MILEAGE]: car age in years to expected mileage. *)
Definition TYPICAL_MILEAGE : list (Z * Z) :=
  [(1, 10000); (2, 20000); (3, 30000); (4, 40000); (5, 48000);
   (6, 56000); (7, 64000); (8, 72000); (9, 80000); (10, 88000);
   (11, 95000); (12, 102000); (13, 109000); (14, 115000); (15, 121000);
   (16, 127000); (17, 133000); (18, 138000); (19, 143000); (20, 148000)]%Z.

(** [PRICE_DEPRECIATION]: car age to fraction of the original value. *)
Definition PRICE_DEPRECIATION : list (Z * Q) :=
  [(0%Z, 1.00); (1%Z, 0.80); (2%Z, 0.70); (3%Z, 0.60); (4%Z, 0.50);
   (5%Z, 0.42); (6%Z, 0.36); (7%Z, 0.31); (8%Z, 0.27); (9%Z, 0.24);
   (10%Z, 0.21); (12%Z, 0.18); (14%Z, 0.15); (16%Z, 0.13); (18%Z, 0.11);
   (20%Z, 0.10)].

(** [GRADE_RANGES], in the dict's insertion order. *)
Definition GRADE_RANGES : list (grade * (Z * Z)) :=
  [(GAplus, (90, 100)); (GA, (80, 89)); (GB, (70, 79)); (GC, (60, 69));
   (GD, (0, 59))]%Z.

(** ** [ScoringEngine] *)

Module Scoring.

(** [_is_suspicious]. *)
Definition is_suspicious (current_year : Z) (l : listing) : bool :=
  let price := l_price l in
  if match price with Some p => (p <? 500)%Z | None => false end then true
  else if match l_make l, l_model l with Some _, Some _ => false | _, _ => true end
  then true
  else match l_year l, price with
       | Some year, Some p =>
           let car_age := (current_year - year)%Z in
           if (car_age <=? 3)%Z && (p <? 3000)%Z then true
           else if (car_age <=? 10)%Z && (p <? 1000)%Z then true
           else false
       | _, _ => false
       end.

(** The interpolation loop of [_get_market_average]:
    [for i in range(len(available_years)-1)]. *)
Fixpoint interpolate_years (model_data : list (Z * Z)) (year : Z) (ys : list Z)
  : option Q :=
  match ys with
  | y1 :: ((y2 :: _) as rest) =>
      if (y1 <=? year)%Z && (year <? y2)%Z then
        let price1 := inject_Z (default 0%Z (Py.zlookup y1 model_data)) in
        let price2 := inject_Z (default 0%Z (Py.zlookup y2 model_data)) in
        let fraction := inject_Z (year - y1) / inject_Z (y2 - y1) in
        Some (price1 + fraction * (price2 - price1))
      else interpolate_years model_data year rest
  | _ => None
  end.

(** [_get_market_average]. *)
Definition get_market_average (md : market_data) (make model : string) (year : Z)
  : option Q :=
  match md with
  | [] => None
  | _ =>
    let make_model_key := (Py.lower make ++ "_" ++ Py.lower model)%string in
    match Py.lookup make_model_key md with
    | None => None
    | Some model_data =>
      match Py.zlookup year model_data with
      | Some p => Some (inject_Z p)
      | None =>
        let available_years :=
          Py.sorted (fun y => inject_Z y) false (map fst model_data) in
        match available_years with
        | [] => None
        | y0 :: _ =>
          if (year <? y0)%Z then None
          else if (last available_years y0 <? year)%Z then None
          else interpolate_years model_data year available_years
        end
      end
    end
  end.

(** The branches of the market-price curve of [_calculate_price_score]. *)
Definition price_seg0 (r : Q) : Q := 100.
Definition price_seg1 (r : Q) : Q := 90 - (r - 0.5) * 75.
Definition price_seg2 (r : Q) : Q := 60 - (r - 0.9) * 100.
Definition price_seg3 (r : Q) : Q := 40 - (r - 1.1) * 75.
Definition price_seg4 (r : Q) : Q := 10.

Definition price_curve (price_ratio : Q) : Q :=
  if Qle_bool price_ratio 0.5 then price_seg0 price_ratio
  else if Qle_bool price_ratio 0.9 then price_seg1 price_ratio
  else if Qle_bool price_ratio 1.1 then price_seg2 price_ratio
  else if Qle_bool price_ratio 1.5 then price_seg3 price_ratio
  else price_seg4 price_ratio.

(** The coarse 5-step curve of the depreciation fallback. *)
Definition coarse_price_curve (price_ratio : Q) : Q :=
  if Qle_bool price_ratio 0.7 then 90
  else if Qle_bool price_ratio 0.9 then 70
  else if Qle_bool price_ratio 1.1 then 50
  else if Qle_bool price_ratio 1.3 then 30
  else 10.

(** The [else] branch of [_calculate_price_score] (no market average). *)
Definition depreciation_price_score (current_year : Z) (price year : Z) : Q :=
  let car_age := (current_year - year)%Z in
  if (car_age <? 0)%Z then 50
  else
    let closest_age :=
      default 0%Z (Py.min_by (fun k => Z.abs (k - car_age)) (map fst PRICE_DEPRECIATION)) in
    let depreciation_factor := default 0.1 (Py.zlookup closest_age PRICE_DEPRECIATION) in
    let estimated_original_price := inject_Z price / depreciation_factor in
    let expected_price := estimated_original_price * depreciation_factor in
    let price_ratio := inject_Z price / expected_price in
    coarse_price_curve price_ratio.

(** [_calculate_price_score]. *)
Definition calculate_price_score (md : market_data) (current_year : Z) (l : listing) : Q :=
  let make := Py.lower (default EmptyString (l_make l)) in
  let model := Py.lower (default EmptyString (l_model l)) in
  match l_price l, l_year l with
  | Some price, Some year =>
    if (price =? 0)%Z || negb (Py.str_truthy make) || negb (Py.str_truthy model)
       || (year =? 0)%Z then 50
    else
      match get_market_average md make model year with
      | Some market_average =>
          if Qeq_bool market_average 0 then depreciation_price_score current_year price year
          else price_curve (inject_Z price / market_average)
      | None => depreciation_price_score current_year price year
      end
  | _, _ => 50
  end.

(** The interpolation loop of [_calculate_mileage_score]. *)
Fixpoint interpolate_ages (car_age : Z) (ages : list Z) : option Q :=
  match ages with
  | a1 :: ((a2 :: _) as rest) =>
      if (a1 <=? car_age)%Z && (car_age <? a2)%Z then
        let m1 := inject_Z (default 0%Z (Py.zlookup a1 TYPICAL_MILEAGE)) in
        let m2 := inject_Z (default 0%Z (Py.zlookup a2 TYPICAL_MILEAGE)) in
        let fraction := inject_Z (car_age - a1) / inject_Z (a2 - a1) in
        Some (m1 + fraction * (m2 - m1))
      else interpolate_ages car_age rest
  | _ => None
  end.

(** The [expected_mileage] computed by [_calculate_mileage_score] for a
    car of age [car_age >= 0]. *)
Definition expected_mileage (car_age : Z) : Q :=
  let closest_age :=
    default 0%Z (Py.min_by (fun k => Z.abs (k - car_age)) (map fst TYPICAL_MILEAGE)) in
  let expected0 := inject_Z (default 150000%Z (Py.zlookup closest_age TYPICAL_MILEAGE)) in
  match Py.zlookup car_age TYPICAL_MILEAGE with
  | Some m => inject_Z m
  | None =>
    let ages := Py.sorted (fun a => inject_Z a) false (map fst TYPICAL_MILEAGE) in
    let first_age := hd 0%Z ages in
    let last_age := last ages 0%Z in
    if (car_age <? first_age)%Z then
      inject_Z (default 0%Z (Py.zlookup first_age TYPICAL_MILEAGE))
        * (inject_Z car_age / inject_Z first_age)
    else if (last_age <? car_age)%Z then
      inject_Z (default 0%Z (Py.zlookup last_age TYPICAL_MILEAGE))
        + 5000 * inject_Z (car_age - last_age)
    else default expected0 (interpolate_ages car_age ages)
  end.

(** The branches of the mileage curve of [_calculate_mileage_score]. *)
Definition mileage_seg0 (r : Q) : Q := 90.
Definition mileage_seg1 (r : Q) : Q := 55 + (0.9 - r) * 87.5.
Definition mileage_seg2 (r : Q) : Q := 55 - (r - 0.9) * 50.
Definition mileage_seg3 (r : Q) : Q := 45 - (r - 1.1) * 87.5.
Definition mileage_seg4 (r : Q) : Q := 10.

Definition mileage_curve (mileage_ratio : Q) : Q :=
  if Qle_bool mileage_ratio 0.5 then mileage_seg0 mileage_ratio
  else if Qle_bool mileage_ratio 0.9 then mileage_seg1 mileage_ratio
  else if Qle_bool mileage_ratio 1.1 then mileage_seg2 mileage_ratio
  else if Qle_bool mileage_ratio 1.5 then mileage_seg3 mileage_ratio
  else mileage_seg4 mileage_ratio.

(** [_calculate_mileage_score]; [None] is the [ZeroDivisionError] raised by
    [mileage / expected_mileage] when [expected_mileage] is [0.0]. *)
Definition calculate_mileage_score (current_year : Z) (l : listing) : option Q :=
  match l_mileage l, l_year l with
  | Some mileage, Some year =>
    if (mileage =? 0)%Z || (year =? 0)%Z then Some 50
    else
      let car_age := (current_year - year)%Z in
      if (car_age <? 0)%Z then Some 50
      else
        let expected := expected_mileage car_age in
        if Qeq_bool expected 0 then None
        else Some (mileage_curve (inject_Z mileage / expected))
  | _, _ => Some 50
  end.

(** The loop over [GRADE_RANGES.items()] in [_get_grade]. *)
Fixpoint grade_in_ranges (score : Q) (ranges : list (grade * (Z * Z))) : grade :=
  match ranges with
  | [] => GF
  | (g, (min_score, max_score)) :: ranges' =>
      if Qle_bool (inject_Z min_score) score && Qle_bool score (inject_Z max_score)
      then g else grade_in_ranges score ranges'
  end.

(** [_get_grade]. *)
Definition get_grade (score : Q) : grade :=
  if Qlt_le_dec score 0 then GF else grade_in_ranges score GRADE_RANGES.

Definition suspicious_reason : string :=
  "Suspiciously low price or missing critical information".

(** [score_listing]; [None] when an exception escapes it. *)
Definition score_listing (md : market_data) (current_year : Z) (l : listing)
  : option listing :=
  if is_suspicious current_year l then
    Some (with_score l 0 GF (mk_score_details 0 0 true (Some [suspicious_reason])))
  else
    let price_score := calculate_price_score md current_year l in
    match calculate_mileage_score current_year l with
    | None => None
    | Some mileage_score =>
        let overall_score := price_score * 0.6 + mileage_score * 0.4 in
        let grade := get_grade overall_score in
        Some (with_score l (Py.round1 overall_score) grade
                (mk_score_details (Py.round1 price_score) (Py.round1 mileage_score)
                   false None))
    end.

(** [batch_score_listings]: a listing whose scoring raised is kept unscored. *)
Definition batch_score_listings (md : market_data) (current_year : Z) (ls : list listing)
  : list listing :=
  map (fun l => match score_listing md current_year l with
                | Some scored => scored
                | None => l
                end) ls.

End Scoring.

(** ** [MatchingEngine] *)

(** A preference dict. *)
Record preference := mk_preference {
  p_id : option string;
  p_user_id : option string;
  p_make : option string;
  p_model : option string;
  p_min_year : option Z;
  p_max_year : option Z;
  p_min_price : option Z;
  p_max_price : option Z;
  p_location : option string;
  p_fuel_type : option string;
  p_transmission : option string
}.

(** The [match_details] dict; [None] is a key that was not set. *)
Record match_details := mk_match_details {
  make_match : option bool;
  model_match : option bool;
  year_match : option bool;
  price_match : option bool;
  location_match : option bool;
  fuel_type_match : option bool;
  transmission_match : option bool;
  md_score : option Q;
  md_grade : option grade
}.

Definition empty_details : match_details :=
  mk_match_details None None None None None None None None None.

(** A match: the listing copy with [match_details], [preference_id] and
    [user_id] added. *)
Record match_ := mk_match {
  m_listing : listing;
  m_details : match_details;
  m_preference_id : string;
  m_user_id : string
}.

Module Matching.

(** [_extract_location]: the segment after the first colon, if any. *)
Fixpoint after_colon (s : string) : option string :=
  match s with
  | EmptyString => None
  | String c s' => if Ascii.eqb c ":" then Some s' else after_colon s'
  end.

Fixpoint until_colon (s : string) : string :=
  match s with
  | EmptyString => EmptyString
  | String c s' => if Ascii.eqb c ":" then EmptyString else String c (until_colon s')
  end.

Definition extract_location (location_str : string) : string :=
  match after_colon location_str with
  | Some rest => Py.lower (Py.strip (until_colon rest))   (* parts[1] *)
  | None => Py.lower (Py.strip location_str)
  end.

(** The make and model test: [True] when it does not exclude. *)
Definition names_agree (wanted got : string) : bool :=
  if negb (String.eqb wanted "any") && Py.str_truthy wanted && Py.str_truthy got then
    Py.contains wanted got || Py.contains got wanted
  else true.

(** A soft criterion on fuel type or transmission. *)
Definition soft_field_match (wanted : string) (got : option string) : bool :=
  if Py.str_truthy wanted && negb (String.eqb (Py.lower wanted) "any") then
    let got := Py.lower (default EmptyString got) in
    if Py.str_truthy got && negb (Py.contains wanted got) then false else true
  else true.

Definition location_criterion (location : string) (got : option string) : bool :=
  if Py.str_truthy location && negb (String.eqb (Py.lower location) "any") then
    let listing_location := Py.lower (default EmptyString got) in
    let location_city := extract_location location in
    let listing_location_city := extract_location listing_location in
    if Py.str_truthy location_city && Py.str_truthy listing_location_city then
      if negb (Py.contains location_city listing_location_city)
         && negb (Py.contains listing_location_city location_city)
      then false else true
    else true
  else true.

(** [if listing_year: if listing_year < min_year or listing_year > max_year]. *)
Definition in_range (v : option Z) (lo hi : Z) : bool :=
  match v with
  | Some x => if negb (x =? 0)%Z && ((x <? lo)%Z || (hi <? x)%Z) then false else true
  | None => true
  end.

Definition listing_suspicious (l : listing) : bool :=
  match l_score_details l with Some d => sd_suspicious d | None => false end.

(** [_check_match]. *)
Definition check_match (l : listing) (make model : string)
  (min_year max_year min_price max_price : Z)
  (location fuel_type transmission : string) : bool * match_details :=
  if listing_suspicious l then (false, empty_details)
  else if negb (names_agree make (Py.lower (default EmptyString (l_make l)))) then
    (false, empty_details)
  else
  let d1 := mk_match_details (Some true) None None None None None None None None in
  if negb (names_agree model (Py.lower (default EmptyString (l_model l)))) then (false, d1)
  else
  let d2 := mk_match_details (Some true) (Some true) None None None None None None None in
  if negb (in_range (l_year l) min_year max_year) then (false, d2)
  else
  let d3 := mk_match_details (Some true) (Some true) (Some true) None None None None None None in
  if negb (in_range (l_price l) min_price max_price) then (false, d3)
  else
  let loc := location_criterion location (l_location l) in
  let fuel := soft_field_match fuel_type (l_fuel_type l) in
  let trans := soft_field_match transmission (l_transmission l) in
  let is_match := true && true && true && true && loc && fuel && trans in
  let d := match l_score l with
           | Some s => mk_match_details (Some true) (Some true) (Some true) (Some true)
                         (Some loc) (Some fuel) (Some trans) (Some s) (l_grade l)
           | None => mk_match_details (Some true) (Some true) (Some true) (Some true)
                         (Some loc) (Some fuel) (Some trans) None None
           end in
  (is_match, d).

(** The criteria [match_listings_to_preference] extracts from a preference. *)
Definition pref_make p := Py.lower (default EmptyString (p_make p)).
Definition pref_model p := Py.lower (default EmptyString (p_model p)).
Definition pref_min_year p := default 0%Z (p_min_year p).
Definition pref_max_year p := default 9999%Z (p_max_year p).
Definition pref_min_price p := default 0%Z (p_min_price p).
Definition pref_max_price p := default 9999999%Z (p_max_price p).
Definition pref_location p := Py.lower (default EmptyString (p_location p)).
Definition pref_fuel_type p := Py.lower (default "Any"%string (p_fuel_type p)).
Definition pref_transmission p := Py.lower (default "Any"%string (p_transmission p)).

Definition check_preference (l : listing) (p : preference) : bool * match_details :=
  check_match l (pref_make p) (pref_model p) (pref_min_year p) (pref_max_year p)
    (pref_min_price p) (pref_max_price p) (pref_location p) (pref_fuel_type p)
    (pref_transmission p).

(** [str(user_id) in str(listing['matched_to'])]. *)
Definition already_matched (l : listing) (p : preference) : bool :=
  match l_matched_to l with
  | Some mt => Py.contains (default EmptyString (p_user_id p)) mt
  | None => false
  end.

(** [match_listings_to_preference]. *)
Fixpoint match_listings_to_preference (ls : list listing) (p : preference) : list match_ :=
  match ls with
  | [] => []
  | l :: ls' =>
    if already_matched l p then match_listings_to_preference ls' p
    else
      let (ok, details) := check_preference l p in
      if ok then
        mk_match l details (default EmptyString (p_id p)) (default EmptyString (p_user_id p))
          :: match_listings_to_preference ls' p
      else match_listings_to_preference ls' p
  end.

(** [matches[user_id_str].extend(user_matches)], creating the key first
    when it is new (the dict keeps insertion order). *)
Fixpoint extend_user (u : string) (ms : list match_) (acc : list (string * list match_))
  : list (string * list match_) :=
  match acc with
  | [] => [(u, ms)]
  | (u', ms') :: acc' =>
      if String.eqb u u' then (u', ms' ++ ms) :: acc' else (u', ms') :: extend_user u ms acc'
  end.

(** The loop over [user_preferences] of [find_matches], before sorting. *)
Definition collect_matches (scored : list listing) (prefs : list preference)
  : list (string * list match_) :=
  fold_left (fun matches p =>
    match p_user_id p with
    | None => matches
    | Some user_id =>
      if negb (Py.str_truthy user_id) then matches
      else
        let user_matches := match_listings_to_preference scored p in
        match user_matches with
        | [] => matches
        | _ => extend_user user_id user_matches matches
        end
    end) prefs [].

Definition score_key (m : match_) : Q := default 0 (l_score (m_listing m)).
Definition price_key (m : match_) : Q := inject_Z (default 0%Z (l_price (m_listing m))).

Definition has_score (m : match_) : bool :=
  match l_score (m_listing m) with Some _ => true | None => false end.

(** The sorting loop of [find_matches], on one user's matches. *)
Definition sort_user_matches (user_matches : list match_) : list match_ :=
  match user_matches with
  | m :: _ =>
      if has_score m then Py.sorted score_key true user_matches
      else Py.sorted price_key false user_matches
  | [] => Py.sorted price_key false user_matches
  end.

(** [find_matches]; [md] is the market data of the engine's scoring engine. *)
Definition find_matches (md : market_data) (current_year : Z)
  (listings : list listing) (user_preferences : list preference)
  : list (string * list match_) :=
  let scored_listings := Scoring.batch_score_listings md current_year listings in
  map (fun '(u, ms) => (u, sort_user_matches ms))
    (collect_matches scored_listings user_preferences).

End Matching.

(** ** Callers of the engine *)

Module Callers.

(** [ScraperManager.match_listings_to_preferences] ([scraper_manager.py]). *)
Definition match_listings_to_preferences (md : market_data) (current_year : Z)
  (listings : list listing) (preferences : list preference)
  : list (string * list match_) :=
  match listings, preferences with
  | [], _ | _, [] => []
  | _, _ => Matching.find_matches md current_year listings preferences
  end.

(** Python's [xs[:n]]. *)
Definition py_take {A} (xs : list A) (n : Z) : list A :=
  if (0 <=? n)%Z then firstn (Z.to_nat n) xs
  else firstn (Z.to_nat (Z.of_nat (length xs) + n)) xs.

(** The scoring loop of [DealsOfWeek._process_deals]: a listing without a
    [score] is scored, and dropped when its scoring raises. *)
Definition score_unscored (md : market_data) (current_year : Z) (listings : list listing)
  : list listing :=
  flat_map (fun l =>
    match l_score l with
    | Some _ => [l]
    | None =>
        match Scoring.score_listing md current_year l with
        | Some scored => [scored]
        | None => []
        end
    end) listings.

(** [DealsOfWeek._process_deals] ([dealsofweek.py]) up to its display step:
    [_enhance_deal_for_display] only adds formatting keys
    ([price_formatted], [mileage_formatted], [discount_percent]) that are
    not part of the listing record, and the cache update is state of the
    [DealsOfWeek] object. *)
Definition process_deals (md : market_data) (current_year : Z)
  (listings : list listing) (max_deals : Z) : list listing :=
  let scored_listings := score_unscored md current_year listings in
  let filtered_listings :=
    filter (fun l => negb (Matching.listing_suspicious l)) scored_listings in
  py_take (Py.sorted (fun l => default 0 (l_score l)) true filtered_listings) max_deals.

End Callers.

(** ** Concrete inputs of the specification's scenarios *)

Module Scenarios.

Local Open Scope string_scope.

(** [MarketData{ford_focus:{2018:12000}}]. *)
Definition ford_focus_market : market_data := [("ford_focus", [(2018%Z, 12000%Z)])].

Definition ford_focus (year price mileage : Z) : listing :=
  mk_listing (Some "Ford") (Some "Focus") (Some year) (Some price) (Some mileage)
    None None None None None None None.

(** Scenario A: [Listing{Ford, Focus, 2018, price=7500, mileage=45000}]. *)
Definition scenario_a : listing := ford_focus 2018 7500 45000.

(** Scenario C's preference. *)
Definition bmw_preference : preference :=
  mk_preference None (Some "456") (Some "BMW") (Some "3 Series")
    (Some 2015%Z) (Some 2020%Z) (Some 10000%Z) (Some 20000%Z)
    (Some "UK: London") (Some "Diesel") (Some "Automatic").

Definition bmw_listing (location : string) : listing :=
  mk_listing (Some "BMW") (Some "3 Series") (Some 2017%Z) (Some 15000%Z) (Some 55000%Z)
    (Some location) (Some "Diesel") (Some "Automatic") None None None None.

(** Scenario D: the BMW listing located in Manchester. *)
Definition scenario_d : listing := bmw_listing "Manchester, UK".

(** A Ford Focus preference with every other field left out. *)
Definition ford_preference : preference :=
  mk_preference None (Some "u1") (Some "Ford") (Some "Focus")
    None None None None None None None.

(** Three Ford Focus listings in 2026: the first is new (age 0) with
    mileage, so its scoring raises; the other two are scored 64.0 and 80.0
    but the cheaper one scores lower. *)
Definition mixed_listings : list listing :=
  [ford_focus 2026 20000 1000; ford_focus 2018 6000 200000; ford_focus 2018 7500 45000].

(** A Ford Focus preference for 2016-2020 and 5000-10000, and the same
    preference with both ranges widened. *)
Definition ford_preference_narrow : preference :=
  mk_preference (Some "p1") (Some "123") (Some "Ford") (Some "Focus")
    (Some 2016%Z) (Some 2020%Z) (Some 5000%Z) (Some 10000%Z)
    (Some "UK: Manchester") (Some "Any") (Some "Any").

Definition ford_preference_wide : preference :=
  mk_preference (Some "p1") (Some "123") (Some "Ford") (Some "Focus")
    (Some 2010%Z) None (Some 1000%Z) (Some 20000%Z)
    (Some "UK: Manchester") (Some "Any") (Some "Any").

(** [SAMPLE_MARKET_DATA] ([scoring.py]), the default market data of the
    matching engine. *)
Definition sample_market_data : market_data :=
  [("ford_focus", [(2015, 8000); (2016, 9000); (2017, 10500); (2018, 12000);
                   (2019, 14000); (2020, 16000); (2021, 18000); (2022, 20000)]%Z);
   ("volkswagen_golf", [(2015, 9000); (2016, 10500); (2017, 12000); (2018, 14000);
                        (2019, 16000); (2020, 18000); (2021, 20000); (2022, 22000)]%Z);
   ("bmw_3 series", [(2015, 12000); (2016, 14000); (2017, 16000); (2018, 19000);
                     (2019, 22000); (2020, 25000); (2021, 29000); (2022, 33000)]%Z)].

(** Scenario A's listing located in Manchester. *)
Definition manchester_focus : listing :=
  mk_listing (Some "Ford") (Some "Focus") (Some 2018%Z) (Some 7500%Z) (Some 45000%Z)
    (Some "Manchester, UK") (Some "Petrol") (Some "Manual") None None None None.

End Scenarios.

(** ** Specification predicates *)

(** [ms] is the stable sort of [pre] by [key] (descending when [reverse]):
    a permutation, ordered, and keeping the input order of equal keys. *)
Definition stable_sort_of {A} (key : A -> Q) (reverse : bool) (pre ms : list A) : Prop :=
  Permutation pre ms /\
  Sorted (fun a b => Py.before key reverse a b = true) ms /\
  (forall k, filter (fun z => Qeq_bool (key z) k) ms = filter (fun z => Qeq_bool (key z) k) pre).

(** Two preferences that differ at most in their year and price ranges,
    the second range containing the first. *)
Definition widens (p p' : preference) : Prop :=
  p_id p' = p_id p /\ p_user_id p' = p_user_id p /\
  p_make p' = p_make p /\ p_model p' = p_model p /\
  p_location p' = p_location p /\ p_fuel_type p' = p_fuel_type p /\
  p_transmission p' = p_transmission p /\
  (Matching.pref_min_year p' <= Matching.pref_min_year p)%Z /\ (Matching.pref_max_year p <= Matching.pref_max_year p')%Z /\
  (Matching.pref_min_price p' <= Matching.pref_min_price p)%Z /\ (Matching.pref_max_price p <= Matching.pref_max_price p')%Z.

(** Market data whose recorded average prices are all positive. *)
Definition positive_market (md : market_data) : Prop :=
  forall key d, In (key, d) md -> Forall (fun p => (0 < p)%Z) (map snd d).

(** A preference that gives only a user id (and no id): every other key
    is missing, so [match_listings_to_preference] uses its defaults. *)
Definition user_only_preference (user_id : string) : preference :=
  mk_preference None (Some user_id) None None None None None None None None None.

(** The seven criteria of a [match_details] dict all set to [True]. *)
Definition all_criteria_met (d : match_details) : Prop :=
  make_match d = Some true /\ model_match d = Some true /\ year_match d = Some true /\
  price_match d = Some true /\ location_match d = Some true /\
  fuel_type_match d = Some true /\ transmission_match d = Some true.

(** * Properties *)

(** ** Scoring *)

Module ScoringFacts.
Import Scoring.

(** C3 (counterexample): at the seam 0.5 the two adjoining branches of the
    price curve disagree: the [ratio <= 0.5] branch gives 100, the
    0.5-0.9 branch gives 90. *)
Lemma C3_price_seam_half_jumps : ~ (price_seg0 0.5 == price_seg1 0.5).
Proof. vm_compute. discriminate. Qed.

(** C3 (amended): the mileage curve is continuous at all four seams, the
    price curve at 0.9, 1.1 and 1.5; at 0.5 the price curve steps from 100
    (for ratio <= 0.5) to 90 (the value of the 0.5-0.9 formula there). *)
Theorem C3_seams :
  mileage_seg0 0.5 == mileage_seg1 0.5 /\
  mileage_seg1 0.9 == mileage_seg2 0.9 /\
  mileage_seg2 1.1 == mileage_seg3 1.1 /\
  mileage_seg3 1.5 == mileage_seg4 1.5 /\
  price_seg1 0.9 == price_seg2 0.9 /\
  price_seg2 1.1 == price_seg3 1.1 /\
  price_seg3 1.5 == price_seg4 1.5 /\
  price_seg0 0.5 == 100 /\ price_seg1 0.5 == 90.
Proof. repeat split; vm_compute; reflexivity. Qed.

(** C6 (counterexample): Scenario A's price score is not about 83.1; it is
    more than 2 points below. *)
Lemma C6_price_score_not_83_1 :
  2 < 83.1 - calculate_price_score Scenarios.ford_focus_market 2026 Scenarios.scenario_a.
Proof. vm_compute. reflexivity. Qed.

(** C6 (amended): for Scenario A the market average is 12000, the price
    ratio is 0.625 and the 0.5-0.9 band formula gives the price score
    90 - (0.625 - 0.5) * 75 = 80.625. *)
Theorem C6_scenario_a_price_score :
  forall current_year,
    get_market_average Scenarios.ford_focus_market "ford" "focus" 2018 = Some 12000 /\
    inject_Z 7500 / 12000 == 0.625 /\
    calculate_price_score Scenarios.ford_focus_market current_year Scenarios.scenario_a
      == price_seg1 0.625 /\
    calculate_price_score Scenarios.ford_focus_market current_year Scenarios.scenario_a
      == 80.625.
Proof. intros current_year. repeat split; vm_compute; reflexivity. Qed.

(** C2 (failing input): [_get_grade] maps 89.9 to F, since it lies between
    the bands [80, 89] and [90, 100]; such a score is produced by
    [score_listing]: a 2018 Ford Focus priced 6000 with mileage 49000,
    scored in 2026 against Scenario A's market data, gets overall score
    89.68... (shown as 89.7) and grade F. *)
Theorem C2_grade_gap :
  get_grade 89.9 = GF /\
  get_grade 90.0 = GAplus /\
  exists r, score_listing Scenarios.ford_focus_market 2026
              (Scenarios.ford_focus 2018 6000 49000) = Some r /\
            l_score r = Some (Py.round1 (100 * 0.6 + mileage_seg1 (49000 # 72000) * 0.4)) /\
            l_grade r = Some GF /\
            (89 < 100 * 0.6 + mileage_seg1 (49000 # 72000) * 0.4 < 90).
Proof.
  split; [vm_compute; reflexivity|].
  split; [vm_compute; reflexivity|].
  eexists; split; [vm_compute; reflexivity|].
  split; [vm_compute; reflexivity|].
  split; [vm_compute; reflexivity|].
  split; vm_compute; reflexivity.
Qed.

(** C4: a listing the suspicious check flags scores exactly 0 with grade F
    and is marked suspicious with its reason, whatever the market data and
    whatever its other fields. *)
Theorem C4_suspicious_scores_zero :
  forall md current_year l,
    is_suspicious current_year l = true ->
    exists r d,
      score_listing md current_year l = Some r /\
      l_score r = Some 0 /\ l_grade r = Some GF /\
      l_score_details r = Some d /\
      sd_suspicious d = true /\ sd_reasons d = Some [suspicious_reason].
Proof.
  intros md current_year l H. unfold score_listing. rewrite H.
  do 2 eexists. repeat split; reflexivity.
Qed.

Lemma C4_witness :
  is_suspicious 2026 (Scenarios.ford_focus 2018 400 999999) = true /\
  exists r d,
    score_listing Scenarios.ford_focus_market 2026 (Scenarios.ford_focus 2018 400 999999) = Some r /\
    l_score r = Some 0 /\ l_grade r = Some GF /\
    l_score_details r = Some d /\
    sd_suspicious d = true /\ sd_reasons d = Some [suspicious_reason].
Proof.
  split; [reflexivity|].
  apply (C4_suspicious_scores_zero Scenarios.ford_focus_market 2026
           (Scenarios.ford_focus 2018 400 999999)).
  reflexivity.
Defined.

(** C5 (counterexample): a Ford Focus from 2000 priced exactly 500 is not
    suspicious in 2026: it gets the neutral score 50 and grade D. *)
Lemma C5_price_500_not_suspicious :
  is_suspicious 2026 (Scenarios.ford_focus 2000 500 0) = false /\
  exists r d,
    score_listing [] 2026 (Scenarios.ford_focus 2000 500 0) = Some r /\
    l_score r = Some (Py.round1 50) /\ l_grade r = Some GD /\
    l_score_details r = Some d /\ sd_suspicious d = false.
Proof.
  split; [reflexivity|].
  do 2 eexists. repeat split; vm_compute; reflexivity.
Qed.

(** C5 (amended): the price floor is strict ([price < 500]); a listing
    priced exactly 500 is suspicious exactly when its make or model is
    missing, or its year is known and the car is at most 10 years old. *)
Theorem C5_price_500_suspicious_iff :
  forall current_year l,
    l_price l = Some 500%Z ->
    (is_suspicious current_year l = true <->
     (l_make l = None \/ l_model l = None \/
      exists year, l_year l = Some year /\ (current_year - year <= 10)%Z)).
Proof.
  intros current_year l Hp. unfold is_suspicious. rewrite Hp. simpl.
  destruct (l_make l) as [mk|]; [|split; [intros _; left; reflexivity | reflexivity]].
  destruct (l_model l) as [mo|];
    [|split; [intros _; right; left; reflexivity | reflexivity]].
  destruct (l_year l) as [year|].
  - destruct (current_year - year <=? 3)%Z eqn:E3; simpl.
    + apply Z.leb_le in E3. split; [intros _; right; right; exists year; split; [reflexivity | lia]
                                   | reflexivity].
    + destruct (current_year - year <=? 10)%Z eqn:E10; simpl.
      * apply Z.leb_le in E10.
        split; [intros _; right; right; exists year; split; [reflexivity | lia] | reflexivity].
      * apply Z.leb_gt in E10. split; [discriminate|].
        intros [H|[H|[y [Hy Hle]]]]; try discriminate. injection Hy as <-. lia.
  - split; [discriminate|]. intros [H|[H|[y [Hy _]]]]; discriminate.
Qed.

Lemma C5_witness :
  l_price (Scenarios.ford_focus 2020 500 0) = Some 500%Z /\
  (is_suspicious 2026 (Scenarios.ford_focus 2020 500 0) = true <->
   (l_make (Scenarios.ford_focus 2020 500 0) = None \/
    l_model (Scenarios.ford_focus 2020 500 0) = None \/
    exists year, l_year (Scenarios.ford_focus 2020 500 0) = Some year /\ (2026 - year <= 10)%Z)).
Proof.
  split; [reflexivity|].
  apply (C5_price_500_suspicious_iff 2026 (Scenarios.ford_focus 2020 500 0)).
  reflexivity.
Defined.

Lemma zlookup_in {V} (k : Z) (d : list (Z * V)) (v : V) :
  Py.zlookup k d = Some v -> In v (map snd d).
Proof.
  induction d as [|[k' v'] d IH]; simpl; [discriminate|].
  destruct (Z.eqb k k'); [intros H; injection H as <-; left; reflexivity|].
  intros H; right; exact (IH H).
Qed.

Lemma depreciation_factor_pos (k : Z) :
  0 < default 0.1 (Py.zlookup k PRICE_DEPRECIATION).
Proof.
  destruct (Py.zlookup k PRICE_DEPRECIATION) as [v|] eqn:E; simpl;
    [|vm_compute; reflexivity].
  apply zlookup_in in E. simpl in E.
  repeat (destruct E as [<-|E]; [vm_compute; reflexivity|]). destruct E.
Qed.

Lemma coarse_price_curve_at_one (r : Q) : r == 1 -> coarse_price_curve r = 50.
Proof.
  intros Hr. unfold coarse_price_curve.
  destruct (Qle_bool r 0.7) eqn:E1.
  { apply Qle_bool_iff in E1. rewrite Hr in E1. exfalso. apply E1. reflexivity. }
  destruct (Qle_bool r 0.9) eqn:E2.
  { apply Qle_bool_iff in E2. rewrite Hr in E2. exfalso. apply E2. reflexivity. }
  destruct (Qle_bool r 1.1) eqn:E3; [reflexivity|].
  exfalso. assert (H : r <= 1.1) by (rewrite Hr; discriminate).
  apply Qle_bool_iff in H. congruence.
Qed.

(** C9: with no resolvable market average, a non-suspicious listing with
    price, make, model and year, not from the future, has price score
    exactly 50: the fallback's expected price is [price / f * f], the
    ratio is 1, and only the middle step of the 5-step curve is reached. *)
Theorem C9_fallback_price_score_50 :
  forall md current_year l price make model year,
    is_suspicious current_year l = false ->
    l_price l = Some price -> l_make l = Some make -> l_model l = Some model ->
    l_year l = Some year -> (year <= current_year)%Z ->
    get_market_average md (Py.lower make) (Py.lower model) year = None ->
    calculate_price_score md current_year l = 50.
Proof.
  intros md current_year l price make model year Hs Hp Hmk Hmo Hy Hle Hma.
  assert (Hp500 : (500 <= price)%Z).
  { unfold is_suspicious in Hs. rewrite Hp in Hs.
    destruct (price <? 500)%Z eqn:E; [discriminate | apply Z.ltb_ge in E; exact E]. }
  unfold calculate_price_score. rewrite Hp, Hy, Hmk, Hmo. cbn [default].
  destruct ((price =? 0)%Z || negb (Py.str_truthy (Py.lower make))
            || negb (Py.str_truthy (Py.lower model)) || (year =? 0)%Z); [reflexivity|].
  rewrite Hma. unfold depreciation_price_score.
  destruct (current_year - year <? 0)%Z eqn:Ea; [reflexivity|].
  apply coarse_price_curve_at_one.
  set (f := default 0.1 (Py.zlookup _ PRICE_DEPRECIATION)).
  assert (Hf : 0 < f) by apply depreciation_factor_pos.
  assert (Hpq : ~ inject_Z price == 0).
  { rewrite Qeq_alt. unfold Qcompare, inject_Z; simpl. rewrite !Z.mul_1_r.
    intros H. apply Z.compare_eq in H. lia. }
  assert (Hf0 : ~ f == 0) by (intros H; rewrite H in Hf; discriminate).
  field. split; assumption.
Qed.

Lemma C9_witness :
  calculate_price_score [] 2026 (Scenarios.ford_focus 2019 8000 30000) = 50.
Proof.
  apply (C9_fallback_price_score_50 [] 2026 (Scenarios.ford_focus 2019 8000 30000)
           8000 "Ford" "Focus" 2019); try reflexivity; lia.
Defined.

(** C10: a listing of the current year (car age 0) with a nonzero mileage
    that passes the suspicious check makes [score_listing] raise: the
    expected mileage is [10000 * (0 / 1) = 0] and [mileage / 0.0] raises
    [ZeroDivisionError]; [batch_score_listings] catches it and passes the
    listing through unscored. *)
Theorem C10_new_car_division_by_zero :
  forall md current_year l mileage,
    l_year l = Some current_year -> current_year <> 0%Z ->
    l_mileage l = Some mileage -> mileage <> 0%Z ->
    is_suspicious current_year l = false ->
    expected_mileage 0 == 0 /\
    calculate_mileage_score current_year l = None /\
    score_listing md current_year l = None /\
    batch_score_listings md current_year [l] = [l].
Proof.
  intros md current_year l mileage Hy Hcy Hm Hm0 Hs.
  assert (Hms : calculate_mileage_score current_year l = None).
  { unfold calculate_mileage_score. rewrite Hm, Hy.
    apply Z.eqb_neq in Hm0. apply Z.eqb_neq in Hcy. rewrite Hm0, Hcy. simpl.
    rewrite Z.sub_diag. reflexivity. }
  assert (Hsl : score_listing md current_year l = None).
  { unfold score_listing. rewrite Hs, Hms. reflexivity. }
  split; [vm_compute; reflexivity|].
  split; [exact Hms|]. split; [exact Hsl|].
  simpl. rewrite Hsl. reflexivity.
Qed.

Lemma C10_witness :
  score_listing Scenarios.ford_focus_market 2026 (Scenarios.ford_focus 2026 3000 1000) = None /\
  batch_score_listings Scenarios.ford_focus_market 2026 [Scenarios.ford_focus 2026 3000 1000]
    = [Scenarios.ford_focus 2026 3000 1000].
Proof.
  destruct (C10_new_car_division_by_zero Scenarios.ford_focus_market 2026
              (Scenarios.ford_focus 2026 3000 1000) 1000) as [_ [_ [H1 H2]]];
    try reflexivity; try discriminate.
  split; [exact H1 | exact H2].
Defined.

End ScoringFacts.

(** ** Python's [sorted] is a stable sort *)

Module SortFacts.

Section StableSort.
Context {A : Type} (key : A -> Q) (reverse : bool).

Local Abbreviation before := (Py.before key reverse).
Local Abbreviation insert := (Py.insert_stable key reverse).
Local Abbreviation R := (fun a b => Py.before key reverse a b = true).

Lemma Qle_bool_false (x y : Q) : Qle_bool x y = false -> y < x.
Proof.
  intros H. apply Qnot_le_lt. intros Hle. apply Qle_bool_iff in Hle. congruence.
Qed.

Lemma before_refl a : before a a = true.
Proof. unfold Py.before. destruct reverse; apply Qle_bool_iff, Qle_refl. Qed.

Lemma before_total a b : before a b = false -> before b a = true.
Proof.
  unfold Py.before. destruct reverse; intros H; apply Qle_bool_false in H;
    apply Qle_bool_iff, Qlt_le_weak, H.
Qed.

Lemma before_trans a b c : before a b = true -> before b c = true -> before a c = true.
Proof.
  unfold Py.before. destruct reverse; intros H1 H2;
    apply Qle_bool_iff in H1, H2; apply Qle_bool_iff; eapply Qle_trans; eassumption.
Qed.

(** An element placed strictly in front of [b] and every element behind it
    have keys different from [b]'s. *)
Lemma before_strict_key a b c k :
  before a b = false -> before a c = true ->
  Qeq_bool (key b) k = true -> Qeq_bool (key c) k = false.
Proof.
  unfold Py.before. intros Hab Hac Hb.
  destruct (Qeq_bool (key c) k) eqn:Hc; [|reflexivity]. exfalso.
  apply Qeq_bool_iff in Hb, Hc.
  assert (Hbc : key b == key c) by (rewrite Hb, Hc; reflexivity).
  destruct reverse; apply Qle_bool_false in Hab; apply Qle_bool_iff in Hac.
  - rewrite <- Hbc in Hac. apply (Qlt_irrefl (key b)). eapply Qle_lt_trans; eassumption.
  - rewrite <- Hbc in Hac. apply (Qlt_irrefl (key b)). eapply Qlt_le_trans; eassumption.
Qed.

Lemma insert_perm x l : Permutation (insert x l) (x :: l).
Proof.
  induction l as [|y l IH]; simpl; [reflexivity|].
  destruct (before y x); [|reflexivity].
  eapply perm_trans; [apply perm_skip, IH | apply perm_swap].
Qed.

Lemma Forall_perm (P : A -> Prop) l l' : Permutation l l' -> Forall P l -> Forall P l'.
Proof.
  intros Hp H. apply Forall_forall. intros z Hz.
  apply (proj1 (Forall_forall P l) H). apply Permutation_in with l'; [|exact Hz].
  symmetry; exact Hp.
Qed.

Lemma insert_sorted x l : StronglySorted R l -> StronglySorted R (insert x l).
Proof.
  induction l as [|y l IH]; simpl; intros H.
  - constructor; constructor.
  - inversion H as [|y' l' Hl Hy]; subst.
    destruct (before y x) eqn:E.
    + constructor; [apply IH, Hl|].
      apply Forall_perm with (x :: l); [symmetry; apply insert_perm|].
      constructor; assumption.
    + constructor; [constructor; assumption|].
      constructor; [apply before_total, E|].
      apply Forall_impl with (fun z => before y z = true); [|exact Hy].
      intros z Hz. eapply before_trans; [apply before_total, E | exact Hz].
Qed.

Lemma filter_all_false (P : A -> bool) l :
  Forall (fun z => P z = false) l -> filter P l = [].
Proof. induction 1 as [|z l Hz _ IH]; simpl; [reflexivity|]. rewrite Hz. exact IH. Qed.

Lemma insert_filter k x l :
  StronglySorted R l ->
  filter (fun z => Qeq_bool (key z) k) (insert x l) =
  filter (fun z => Qeq_bool (key z) k) l ++
    (if Qeq_bool (key x) k then [x] else []).
Proof.
  induction l as [|y l IH]; intros H; simpl.
  - destruct (Qeq_bool (key x) k); reflexivity.
  - inversion H as [|y' l' Hl Hy]; subst.
    destruct (before y x) eqn:E; simpl.
    + rewrite IH by exact Hl. destruct (Qeq_bool (key y) k); reflexivity.
    + destruct (Qeq_bool (key x) k) eqn:Px.
      * assert (Py : Qeq_bool (key y) k = false)
          by (apply (before_strict_key y x y k E (before_refl y) Px)).
        assert (Pl : filter (fun z => Qeq_bool (key z) k) l = []).
        { apply filter_all_false.
          apply Forall_impl with (fun z => before y z = true); [|exact Hy].
          intros z Hz. exact (before_strict_key y x z k E Hz Px). }
        rewrite Py, Pl. reflexivity.
      * rewrite app_nil_r. reflexivity.
Qed.

Lemma fold_insert l acc :
  StronglySorted R acc ->
  StronglySorted R (fold_left (fun acc x => insert x acc) l acc) /\
  Permutation (fold_left (fun acc x => insert x acc) l acc) (acc ++ l) /\
  (forall k, filter (fun z => Qeq_bool (key z) k) (fold_left (fun acc x => insert x acc) l acc) =
             filter (fun z => Qeq_bool (key z) k) acc ++ filter (fun z => Qeq_bool (key z) k) l).
Proof.
  revert acc. induction l as [|x l IH]; intros acc Hacc; simpl.
  - rewrite app_nil_r. repeat split; [exact Hacc | reflexivity | intros k; rewrite app_nil_r; reflexivity].
  - destruct (IH (insert x acc) (insert_sorted x acc Hacc)) as [Hs [Hp Hf]].
    repeat split.
    + exact Hs.
    + eapply perm_trans; [exact Hp|].
      eapply perm_trans; [apply Permutation_app_tail, insert_perm|].
      simpl. apply Permutation_middle.
    + intros k. rewrite Hf, insert_filter by exact Hacc.
      rewrite <- app_assoc. f_equal. destruct (Qeq_bool (key x) k); reflexivity.
Qed.

(** [sorted(l, key=key, reverse=reverse)] is the stable sort of [l]. *)
Lemma sorted_stable l : stable_sort_of key reverse l (Py.sorted key reverse l).
Proof.
  unfold Py.sorted. destruct (fold_insert l [] (SSorted_nil _)) as [Hs [Hp Hf]].
  split; [symmetry; exact Hp|]. split.
  - apply StronglySorted_Sorted, Hs.
  - intros k. rewrite Hf. reflexivity.
Qed.

End StableSort.

End SortFacts.

(** ** Matching *)

Module MatchingFacts.
Import Matching.

(** C1 (counterexample): Scenario D. All four mandatory criteria pass and
    only the location fails, yet [_check_match] rejects the pair and the
    listing is absent from the output of [find_matches]. *)
Lemma C1_scenario_d_excluded :
  let r := check_preference Scenarios.scenario_d Scenarios.bmw_preference in
  fst r = false /\
  make_match (snd r) = Some true /\ model_match (snd r) = Some true /\
  year_match (snd r) = Some true /\ price_match (snd r) = Some true /\
  location_match (snd r) = Some false /\
  match_listings_to_preference [Scenarios.scenario_d] Scenarios.bmw_preference = [] /\
  find_matches [] 2026 [Scenarios.scenario_d] [Scenarios.bmw_preference] = [].
Proof. repeat split; vm_compute; reflexivity. Qed.

(** C1 (amended): [_check_match] accepts a pair exactly when the listing is
    not flagged suspicious, the four mandatory criteria pass, and each of
    the location, fuel type and transmission criteria passes; so a
    specified, non-matching soft criterion excludes the listing, and every
    accepted pair records [true] for all three soft criteria. *)
Theorem C1_soft_criteria_exclude :
  forall l p,
    let r := check_preference l p in
    fst r =
      negb (listing_suspicious l)
      && names_agree (pref_make p) (Py.lower (default EmptyString (l_make l)))
      && names_agree (pref_model p) (Py.lower (default EmptyString (l_model l)))
      && in_range (l_year l) (pref_min_year p) (pref_max_year p)
      && in_range (l_price l) (pref_min_price p) (pref_max_price p)
      && location_criterion (pref_location p) (l_location l)
      && soft_field_match (pref_fuel_type p) (l_fuel_type l)
      && soft_field_match (pref_transmission p) (l_transmission l) /\
    (fst r = true ->
     location_match (snd r) = Some true /\ fuel_type_match (snd r) = Some true /\
     transmission_match (snd r) = Some true).
Proof.
  intros l p. unfold check_preference, check_match. cbv zeta.
  destruct (listing_suspicious l); [split; [reflexivity | discriminate]|].
  destruct (names_agree (pref_make p) _); [|split; [reflexivity | discriminate]].
  destruct (names_agree (pref_model p) _); [|split; [reflexivity | discriminate]].
  destruct (in_range (l_year l) _ _); [|split; [reflexivity | discriminate]].
  destruct (in_range (l_price l) _ _); [|split; [reflexivity | discriminate]].
  destruct (location_criterion _ _), (soft_field_match (pref_fuel_type p) _),
    (soft_field_match (pref_transmission p) _), (l_score l);
    simpl; split; try reflexivity; try discriminate;
    intros _; repeat split.
Qed.

Lemma in_range_widen v lo hi lo' hi' :
  in_range v lo hi = true -> (lo' <= lo)%Z -> (hi <= hi')%Z -> in_range v lo' hi' = true.
Proof.
  unfold in_range. destruct v as [x|]; [|reflexivity].
  destruct (x =? 0)%Z; simpl; [reflexivity|].
  destruct (x <? lo)%Z eqn:E1; [discriminate|]. destruct (hi <? x)%Z eqn:E2; [discriminate|].
  intros _ H1 H2. apply Z.ltb_ge in E1, E2.
  replace (x <? lo')%Z with false by (symmetry; apply Z.ltb_ge; lia).
  replace (hi' <? x)%Z with false by (symmetry; apply Z.ltb_ge; lia).
  reflexivity.
Qed.

Lemma check_preference_widen l p p' :
  widens p p' -> fst (check_preference l p) = true ->
  check_preference l p' = check_preference l p.
Proof.
  intros (_ & _ & Hmk & Hmo & Hloc & Hf & Ht & Hy1 & Hy2 & Hp1 & Hp2).
  unfold check_preference.
  unfold pref_make, pref_model, pref_location, pref_fuel_type, pref_transmission.
  rewrite Hmk, Hmo, Hloc, Hf, Ht.
  fold (pref_make p) (pref_model p) (pref_location p) (pref_fuel_type p) (pref_transmission p).
  unfold check_match. cbv zeta.
  destruct (listing_suspicious l); [discriminate|].
  destruct (negb (names_agree (pref_make p) _)); [discriminate|].
  destruct (negb (names_agree (pref_model p) _)); [discriminate|].
  destruct (in_range (l_year l) (pref_min_year p) (pref_max_year p)) eqn:Ey;
    [|discriminate].
  rewrite (in_range_widen _ _ _ _ _ Ey Hy1 Hy2).
  destruct (in_range (l_price l) (pref_min_price p) (pref_max_price p)) eqn:Ep;
    [|discriminate].
  rewrite (in_range_widen _ _ _ _ _ Ep Hp1 Hp2).
  intros _. reflexivity.
Qed.

(** C7: widening a preference's year and price ranges keeps every match:
    each match returned for [p] is also returned for [p']. *)
Theorem C7_widening_keeps_matches :
  forall ls p p' m,
    widens p p' ->
    In m (match_listings_to_preference ls p) ->
    In m (match_listings_to_preference ls p').
Proof.
  intros ls p p' m Hw. pose proof Hw as (Hid & Huid & _).
  induction ls as [|l ls IH]; simpl; [intros []|].
  assert (Ha : already_matched l p' = already_matched l p)
    by (unfold already_matched; rewrite Huid; reflexivity).
  rewrite Ha.
  destruct (already_matched l p); [exact IH|].
  destruct (check_preference l p) as [ok d] eqn:E.
  destruct ok.
  - rewrite (check_preference_widen l p p' Hw) by (rewrite E; reflexivity).
    rewrite E, Hid, Huid. intros [H|H]; [left; exact H | right; exact (IH H)].
  - intros H. destruct (check_preference l p') as [[|] d']; [right|]; exact (IH H).
Qed.

Lemma C7_witness :
  let m := mk_match Scenarios.manchester_focus
             (snd (check_preference Scenarios.manchester_focus Scenarios.ford_preference_narrow))
             "p1" "123" in
  In m (match_listings_to_preference [Scenarios.manchester_focus] Scenarios.ford_preference_narrow) /\
  In m (match_listings_to_preference [Scenarios.manchester_focus] Scenarios.ford_preference_wide).
Proof.
  intros m. assert (Hin : In m (match_listings_to_preference [Scenarios.manchester_focus]
                                  Scenarios.ford_preference_narrow))
    by (vm_compute; left; reflexivity).
  split; [exact Hin|].
  apply (C7_widening_keeps_matches [Scenarios.manchester_focus]
           Scenarios.ford_preference_narrow Scenarios.ford_preference_wide m); [|exact Hin].
  repeat split; vm_compute; try reflexivity; discriminate.
Defined.

(** C8 (counterexample): scores are present but the list is ordered by
    price. The new Ford Focus (age 0, nonzero mileage) fails scoring and is
    passed through unscored; it is the user's first match, so the whole
    list is sorted by price, putting the match scored 64.0 before the one
    scored 80.0. *)
Lemma C8_mixed_list_sorted_by_price :
  exists m1 m2 m3,
    find_matches Scenarios.ford_focus_market 2026 Scenarios.mixed_listings
      [Scenarios.ford_preference] = [("u1"%string, [m1; m2; m3])] /\
    has_score m1 = true /\ has_score m2 = true /\ has_score m3 = false /\
    score_key m1 < score_key m2.
Proof.
  do 3 eexists. split; [vm_compute; reflexivity|].
  repeat split; vm_compute; reflexivity.
Qed.

(** C8 (amended): each user's list is the stable sort of the matches
    collected for that user (in preference order, then listing order): by
    score descending (a missing score counting as 0) when the first
    collected match carries a score, otherwise by price ascending (a
    missing price counting as 0). Equal keys keep their collected order. *)
Theorem C8_ranking_stable :
  forall md current_year listings prefs u ms,
    In (u, ms) (find_matches md current_year listings prefs) ->
    exists pre,
      In (u, pre) (collect_matches (Scoring.batch_score_listings md current_year listings) prefs) /\
      (forall m rest, pre = m :: rest -> has_score m = true ->
         stable_sort_of score_key true pre ms) /\
      (forall m rest, pre = m :: rest -> has_score m = false ->
         stable_sort_of price_key false pre ms).
Proof.
  intros md current_year listings prefs u ms H.
  unfold find_matches in H. apply in_map_iff in H.
  destruct H as [[u' pre] [Heq Hin]]. injection Heq as <- <-.
  exists pre. split; [exact Hin|].
  split; intros m rest -> Hs; unfold sort_user_matches; rewrite Hs;
    apply SortFacts.sorted_stable.
Qed.

Lemma C8_witness :
  let ms := snd (hd (EmptyString, [])
                  (find_matches Scenarios.ford_focus_market 2026 Scenarios.mixed_listings
                     [Scenarios.ford_preference])) in
  exists pre,
    In ("u1"%string, pre)
      (collect_matches (Scoring.batch_score_listings Scenarios.ford_focus_market 2026
                          Scenarios.mixed_listings) [Scenarios.ford_preference]) /\
    (forall m rest, pre = m :: rest -> has_score m = true ->
       stable_sort_of score_key true pre ms) /\
    (forall m rest, pre = m :: rest -> has_score m = false ->
       stable_sort_of price_key false pre ms).
Proof.
  intros ms.
  apply (C8_ranking_stable Scenarios.ford_focus_market 2026 Scenarios.mixed_listings
           [Scenarios.ford_preference] "u1"%string ms).
  vm_compute. left. reflexivity.
Defined.

End MatchingFacts.

(** ** Further properties of the scoring engine *)

Module ScoringExtra.
Import Scoring.

Ltac qle_facts :=
  repeat match goal with
  | H : Qle_bool _ _ = true |- _ => apply Qle_bool_iff in H
  | H : Qle_bool _ _ = false |- _ => apply SortFacts.Qle_bool_false in H
  end.

Ltac split_qle_simpl :=
  repeat (match goal with
          | |- context [Qle_bool ?a ?b] => let E := fresh "E" in destruct (Qle_bool a b) eqn:E
          end; simpl); qle_facts.

Ltac split_qle :=
  repeat match goal with
  | |- context [Qle_bool ?a ?b] => let E := fresh "E" in destruct (Qle_bool a b) eqn:E
  end; qle_facts.

Lemma price_curve_bounds r : 10 <= price_curve r <= 100.
Proof.
  unfold price_curve, price_seg0, price_seg1, price_seg2, price_seg3, price_seg4.
  split_qle; split; lra.
Qed.

Lemma coarse_price_curve_bounds r : 10 <= coarse_price_curve r <= 100.
Proof. unfold coarse_price_curve. split_qle; split; lra. Qed.

Lemma mileage_curve_bounds r : 10 <= mileage_curve r <= 90.
Proof.
  unfold mileage_curve, mileage_seg0, mileage_seg1, mileage_seg2, mileage_seg3, mileage_seg4.
  split_qle; split; lra.
Qed.

Lemma price_score_bounds md current_year l :
  10 <= calculate_price_score md current_year l <= 100.
Proof.
  unfold calculate_price_score.
  destruct (l_price l) as [price|], (l_year l) as [year|];
    try (split; lra).
  destruct (_ || _); [split; lra|].
  unfold depreciation_price_score.
  destruct (get_market_average _ _ _ _) as [a|];
    [destruct (Qeq_bool a 0)|];
    try apply price_curve_bounds;
    (destruct (current_year - year <? 0)%Z; [split; lra | apply coarse_price_curve_bounds]).
Qed.

Lemma mileage_score_bounds current_year l s :
  calculate_mileage_score current_year l = Some s -> 10 <= s <= 90.
Proof.
  unfold calculate_mileage_score.
  destruct (l_mileage l) as [m|], (l_year l) as [year|];
    try (intros H; injection H as <-; split; lra).
  destruct (_ || _); [intros H; injection H as <-; split; lra|].
  destruct (current_year - year <? 0)%Z; [intros H; injection H as <-; split; lra|].
  destruct (Qeq_bool _ 0); [discriminate|].
  intros H; injection H as <-. apply mileage_curve_bounds.
Qed.

(** X1: the price score always lies in [10, 100]. *)
Theorem X1_price_score_bounds :
  forall md current_year l, 10 <= calculate_price_score md current_year l <= 100.
Proof. exact price_score_bounds. Qed.

(** X2: when the mileage score is computed (no exception) it lies in
    [10, 90]. *)
Theorem X2_mileage_score_bounds :
  forall current_year l s, calculate_mileage_score current_year l = Some s -> 10 <= s <= 90.
Proof. exact mileage_score_bounds. Qed.

Lemma X2_witness :
  calculate_mileage_score 2026 Scenarios.scenario_a = Some (mileage_curve (45000 # 72000)) /\
  10 <= mileage_curve (45000 # 72000) <= 90.
Proof.
  split; [vm_compute; reflexivity|].
  apply (X2_mileage_score_bounds 2026 Scenarios.scenario_a). vm_compute. reflexivity.
Defined.

Lemma price_curve_antitone r1 r2 : r1 <= r2 -> price_curve r2 <= price_curve r1.
Proof.
  intros H.
  unfold price_curve, price_seg0, price_seg1, price_seg2, price_seg3, price_seg4.
  split_qle; lra.
Qed.

(** X3: the market-price curve never rewards a higher price: a larger
    price ratio never gets a larger score. *)
Theorem X3_price_curve_antitone :
  forall r1 r2, r1 <= r2 -> price_curve r2 <= price_curve r1.
Proof. exact price_curve_antitone. Qed.

Lemma X3_witness : price_curve 0.75 <= price_curve 0.625.
Proof. apply X3_price_curve_antitone. vm_compute. discriminate. Defined.

Lemma mileage_curve_antitone r1 r2 : r1 <= r2 -> mileage_curve r2 <= mileage_curve r1.
Proof.
  intros H.
  unfold mileage_curve, mileage_seg0, mileage_seg1, mileage_seg2, mileage_seg3, mileage_seg4.
  split_qle; lra.
Qed.

(** X4: the mileage curve never rewards a higher mileage ratio. *)
Theorem X4_mileage_curve_antitone :
  forall r1 r2, r1 <= r2 -> mileage_curve r2 <= mileage_curve r1.
Proof. exact mileage_curve_antitone. Qed.

Lemma X4_witness : mileage_curve 1.2 <= mileage_curve 0.7.
Proof. apply X4_mileage_curve_antitone. vm_compute. discriminate. Defined.

(** X5: on [0, 100], [_get_grade] returns F exactly on the four gaps
    between the integer-bounded bands: (59,60), (69,70), (79,80) and
    (89,90). *)
Theorem X5_grade_F_exactly_in_gaps :
  forall s, 0 <= s <= 100 ->
    (get_grade s = GF <-> (59 < s < 60 \/ 69 < s < 70 \/ 79 < s < 80 \/ 89 < s < 90)).
Proof.
  intros s Hs. unfold get_grade.
  destruct (Qlt_le_dec s 0) as [Hlt|_]; [lra|].
  unfold GRADE_RANGES, grade_in_ranges, inject_Z.
  split_qle_simpl;
    first [ split; [discriminate | intros [H|[H|[H|H]]]; lra]
          | split; [intros _ | reflexivity];
            first [left; lra | right; left; lra | right; right; left; lra
                  | right; right; right; lra] ].
Qed.

Lemma X5_witness :
  get_grade 89.9 = GF <-> (59 < 89.9 < 60 \/ 69 < 89.9 < 70 \/ 79 < 89.9 < 80 \/ 89 < 89.9 < 90).
Proof. apply X5_grade_F_exactly_in_gaps. split; vm_compute; discriminate. Defined.

(** X6: a score above 100 always gets grade F. *)
Theorem X6_grade_above_100_F : forall s, 100 < s -> get_grade s = GF.
Proof.
  intros s Hs. unfold get_grade.
  destruct (Qlt_le_dec s 0) as [Hlt|_]; [reflexivity|].
  unfold GRADE_RANGES, grade_in_ranges, inject_Z.
  split_qle_simpl; try reflexivity; lra.
Qed.

Lemma X6_witness : get_grade 100.5 = GF.
Proof. apply X6_grade_above_100_F. vm_compute. reflexivity. Defined.

Lemma zlookup_some_key {V} (k : Z) (d : list (Z * V)) (v : V) :
  Py.zlookup k d = Some v -> In k (map fst d).
Proof.
  induction d as [|[k' v'] d IH]; simpl; [discriminate|].
  destruct (Z.eqb k k') eqn:E; [intros _; left; symmetry; apply Z.eqb_eq, E|].
  intros H; right; exact (IH H).
Qed.

Lemma zlookup_of_key {V} (k : Z) (d : list (Z * V)) :
  In k (map fst d) -> exists v, Py.zlookup k d = Some v.
Proof.
  induction d as [|[k' v'] d IH]; simpl; [intros []|].
  destruct (Z.eqb k k') eqn:E; [intros _; eexists; reflexivity|].
  intros [H|H]; [subst; rewrite Z.eqb_refl in E; discriminate | exact (IH H)].
Qed.

Lemma fraction_unit (a b : Z) : (0 <= a)%Z -> (a < b)%Z -> 0 <= inject_Z a / inject_Z b <= 1.
Proof.
  intros Ha Hab. assert (Hb : 0 < inject_Z b) by (change 0 with (inject_Z 0); rewrite <- Zlt_Qlt; lia).
  split.
  - apply Qle_shift_div_l; [exact Hb|]. rewrite Qmult_0_l.
    change 0 with (inject_Z 0). rewrite <- Zle_Qle. exact Ha.
  - apply Qle_shift_div_r; [exact Hb|]. rewrite Qmult_1_l. rewrite <- Zle_Qle. lia.
Qed.

Lemma interpolate_years_convex model_data year ys a :
  Forall (fun y => In y (map fst model_data)) ys ->
  interpolate_years model_data year ys = Some a ->
  exists p1 p2 f, In p1 (map snd model_data) /\ In p2 (map snd model_data) /\
    0 <= f <= 1 /\ a == inject_Z p1 + f * (inject_Z p2 - inject_Z p1).
Proof.
  induction ys as [|y1 ys IH]; simpl; [discriminate|].
  destruct ys as [|y2 ys']; [discriminate|].
  intros Hall. inversion Hall as [|y1' l' Hy1 Hrest]; subst.
  inversion Hrest as [|y2' l'' Hy2 _]; subst.
  destruct ((y1 <=? year)%Z && (year <? y2)%Z) eqn:E.
  - apply andb_prop in E as [E1 E2]. apply Z.leb_le in E1. apply Z.ltb_lt in E2.
    destruct (zlookup_of_key y1 model_data Hy1) as [v1 Hv1].
    destruct (zlookup_of_key y2 model_data Hy2) as [v2 Hv2].
    rewrite Hv1, Hv2. simpl. intros H. injection H as <-.
    exists v1, v2, (inject_Z (year - y1) / inject_Z (y2 - y1)).
    split; [exact (ScoringFacts.zlookup_in _ _ _ Hv1)|].
    split; [exact (ScoringFacts.zlookup_in _ _ _ Hv2)|].
    split; [apply fraction_unit; lia | reflexivity].
  - intros H. exact (IH Hrest H).
Qed.

Lemma market_average_convex md make model year a :
  get_market_average md make model year = Some a ->
  exists model_data,
    Py.lookup (Py.lower make ++ "_" ++ Py.lower model)%string md = Some model_data /\
    exists p1 p2 f, In p1 (map snd model_data) /\ In p2 (map snd model_data) /\
      0 <= f <= 1 /\ a == inject_Z p1 + f * (inject_Z p2 - inject_Z p1).
Proof.
  unfold get_market_average.
  destruct md as [|e md']; [discriminate|].
  destruct (Py.lookup _ (e :: md')) as [model_data|]; [|discriminate].
  intros H. exists model_data. split; [reflexivity|].
  destruct (Py.zlookup year model_data) as [p|] eqn:Ep.
  - injection H as <-. exists p, p, 0.
    split; [exact (ScoringFacts.zlookup_in _ _ _ Ep)|].
    split; [exact (ScoringFacts.zlookup_in _ _ _ Ep)|].
    split; [split; lra | ring].
  - assert (Hys : Forall (fun y => In y (map fst model_data))
                    (Py.sorted (fun y => inject_Z y) false (map fst model_data))).
    { apply Forall_forall. intros y Hy.
      destruct (SortFacts.sorted_stable (fun y => inject_Z y) false (map fst model_data))
        as [Hp _].
      apply Permutation_in with (2 := Hy). symmetry. exact Hp. }
    destruct (Py.sorted _ _ _) as [|y0 ys] eqn:Es; [discriminate|].
    destruct (year <? y0)%Z; [discriminate|].
    destruct (last (y0 :: ys) y0 <? year)%Z; [discriminate|].
    exact (interpolate_years_convex model_data year (y0 :: ys) a Hys H).
Qed.

(** X7: a resolved market average lies between the smallest and the
    largest average price recorded for that make and model: it is either
    an exact entry or a linear interpolation between two entries. *)
Theorem X7_market_average_within_recorded :
  forall md make model year a,
    get_market_average md make model year = Some a ->
    exists model_data,
      Py.lookup (Py.lower make ++ "_" ++ Py.lower model)%string md = Some model_data /\
      forall lo hi, Forall (fun p => lo <= inject_Z p <= hi) (map snd model_data) ->
        lo <= a <= hi.
Proof.
  intros md make model year a H.
  destruct (market_average_convex md make model year a H)
    as (model_data & Hl & p1 & p2 & f & H1 & H2 & Hf & Ha).
  exists model_data. split; [exact Hl|]. intros lo hi Hb.
  rewrite Forall_forall in Hb. apply Hb in H1. apply Hb in H2. rewrite Ha. split; nra.
Qed.

Lemma X7_witness :
  exists model_data,
    Py.lookup (Py.lower "ford" ++ "_" ++ Py.lower "focus")%string Scenarios.sample_market_data
      = Some model_data /\
    forall lo hi, Forall (fun p => lo <= inject_Z p <= hi) (map snd model_data) ->
      lo <= 10500 <= hi.
Proof.
  apply (X7_market_average_within_recorded Scenarios.sample_market_data "ford" "focus" 2017).
  vm_compute. reflexivity.
Defined.

Lemma lookup_in {V} (k : string) (d : list (string * V)) (v : V) :
  Py.lookup k d = Some v -> In (k, v) d.
Proof.
  induction d as [|[k' v'] d IH]; simpl; [discriminate|].
  destruct (String.eqb k k') eqn:E.
  - apply String.eqb_eq in E. subst. intros H. injection H as <-. left; reflexivity.
  - intros H. right. exact (IH H).
Qed.

Lemma depreciation_price_score_50 current_year price year :
  price <> 0%Z -> depreciation_price_score current_year price year = 50.
Proof.
  intros Hp. unfold depreciation_price_score.
  destruct (current_year - year <? 0)%Z; [reflexivity|].
  apply ScoringFacts.coarse_price_curve_at_one.
  set (f := default 0.1 (Py.zlookup _ PRICE_DEPRECIATION)).
  assert (Hf : 0 < f) by apply ScoringFacts.depreciation_factor_pos.
  assert (Hpq : ~ inject_Z price == 0).
  { change 0 with (inject_Z 0). rewrite inject_Z_injective. exact Hp. }
  assert (Hf0 : ~ f == 0) by (intros H; rewrite H in Hf; discriminate).
  field. split; assumption.
Qed.

Lemma market_average_positive md make model year a :
  positive_market md -> get_market_average md make model year = Some a -> 0 < a.
Proof.
  intros Hmd H.
  destruct (market_average_convex md make model year a H)
    as (model_data & Hl & p1 & p2 & f & H1 & H2 & Hf & Ha).
  apply lookup_in, Hmd in Hl. rewrite Forall_forall in Hl.
  apply Hl in H1. apply Hl in H2.
  assert (Q1 : 1 <= inject_Z p1) by (change 1 with (inject_Z 1); rewrite <- Zle_Qle; lia).
  assert (Q2 : 1 <= inject_Z p2) by (change 1 with (inject_Z 1); rewrite <- Zle_Qle; lia).
  rewrite Ha. nra.
Qed.

(** X8: with positive market data, raising a listing's (nonzero) price
    never raises its price score; the other fields stay the same. *)
Theorem X8_price_score_antitone_in_price :
  forall md current_year l p1 p2,
    positive_market md -> p1 <> 0%Z -> p2 <> 0%Z -> (p1 <= p2)%Z ->
    calculate_price_score md current_year (with_price l p2)
      <= calculate_price_score md current_year (with_price l p1).
Proof.
  intros md current_year l p1 p2 Hmd H1 H2 H12.
  unfold calculate_price_score, with_price. cbn [l_price l_year l_make l_model].
  destruct (l_year l) as [year|]; [|apply Qle_refl].
  apply Z.eqb_neq in H1. apply Z.eqb_neq in H2. rewrite H1, H2. simpl orb.
  destruct (_ || _); [apply Qle_refl|].
  destruct (get_market_average _ _ _ _) as [a|] eqn:Ea.
  - destruct (Qeq_bool a 0).
    + rewrite !depreciation_price_score_50 by (apply Z.eqb_neq; assumption). apply Qle_refl.
    + apply price_curve_antitone. unfold Qdiv. apply Qmult_le_compat_r.
      * rewrite <- Zle_Qle. exact H12.
      * apply Qinv_le_0_compat, Qlt_le_weak. exact (market_average_positive _ _ _ _ _ Hmd Ea).
  - rewrite !depreciation_price_score_50 by (apply Z.eqb_neq; assumption). apply Qle_refl.
Qed.

Lemma X8_witness :
  calculate_price_score Scenarios.sample_market_data 2026 (with_price Scenarios.scenario_a 9000)
    <= calculate_price_score Scenarios.sample_market_data 2026 (with_price Scenarios.scenario_a 7500).
Proof.
  apply X8_price_score_antitone_in_price; try discriminate; try lia.
  intros key d Hin. simpl in Hin.
  repeat (destruct Hin as [Hin|Hin]; [injection Hin as <- <-; repeat constructor|]).
  destruct Hin.
Defined.

Lemma expected_mileage_pos car_age : (1 <= car_age)%Z -> 0 < expected_mileage car_age.
Proof.
  intros H. destruct (Z.le_gt_cases car_age 20) as [Hle|Hgt].
  - assert (car_age = 1 \/ car_age = 2 \/ car_age = 3 \/ car_age = 4 \/ car_age = 5 \/
            car_age = 6 \/ car_age = 7 \/ car_age = 8 \/ car_age = 9 \/ car_age = 10 \/
            car_age = 11 \/ car_age = 12 \/ car_age = 13 \/ car_age = 14 \/ car_age = 15 \/
            car_age = 16 \/ car_age = 17 \/ car_age = 18 \/ car_age = 19 \/ car_age = 20)%Z
      as Hc by lia.
    repeat (destruct Hc as [->|Hc]; [vm_compute; reflexivity|]). subst. vm_compute. reflexivity.
  - unfold expected_mileage. cbv zeta.
    destruct (Py.zlookup car_age TYPICAL_MILEAGE) as [v|] eqn:E.
    + apply zlookup_some_key in E. simpl in E. lia.
    + assert (Hs : Py.sorted (fun a => inject_Z a) false (map fst TYPICAL_MILEAGE)
                   = [1; 2; 3; 4; 5; 6; 7; 8; 9; 10; 11; 12; 13; 14; 15; 16; 17; 18; 19; 20]%Z)
        by (vm_compute; reflexivity).
      rewrite Hs. cbn [hd last].
      replace (car_age <? 1)%Z with false by (symmetry; apply Z.ltb_ge; lia).
      replace (20 <? car_age)%Z with true by (symmetry; apply Z.ltb_lt; lia).
      assert (Ha : 0 <= inject_Z (car_age - 20))
        by (change 0 with (inject_Z 0); rewrite <- Zle_Qle; lia).
      simpl default. unfold inject_Z at 1. lra.
Qed.


(** X10: for a fixed listing, a higher positive mileage never gets a higher
    mileage score (when both scores are computed). *)
Theorem X10_mileage_score_antitone :
  forall current_year l m1 m2 s1 s2,
    (0 < m1)%Z -> (m1 <= m2)%Z ->
    calculate_mileage_score current_year (with_mileage l m1) = Some s1 ->
    calculate_mileage_score current_year (with_mileage l m2) = Some s2 ->
    s2 <= s1.
Proof.
  intros current_year l m1 m2 s1 s2 H1 H12.
  unfold calculate_mileage_score, with_mileage. cbn [l_mileage l_year].
  destruct (l_year l) as [year|]; [|intros E1 E2; injection E1 as <-; injection E2 as <-; lra].
  replace (m1 =? 0)%Z with false by (symmetry; apply Z.eqb_neq; lia).
  replace (m2 =? 0)%Z with false by (symmetry; apply Z.eqb_neq; lia).
  simpl orb.
  destruct (year =? 0)%Z; [intros E1 E2; injection E1 as <-; injection E2 as <-; lra|].
  destruct (current_year - year <? 0)%Z eqn:Ea;
    [intros E1 E2; injection E1 as <-; injection E2 as <-; lra|].
  apply Z.ltb_ge in Ea.
  destruct (Qeq_bool (expected_mileage (current_year - year)) 0) eqn:Eq; [discriminate|].
  intros E1 E2. injection E1 as <-. injection E2 as <-.
  assert (Hpos : 0 < expected_mileage (current_year - year)).
  { destruct (Z.eq_dec (current_year - year) 0) as [H0|H0].
    - rewrite H0 in Eq. vm_compute in Eq. discriminate.
    - apply expected_mileage_pos. lia. }
  apply mileage_curve_antitone. unfold Qdiv. apply Qmult_le_compat_r.
  - rewrite <- Zle_Qle. exact H12.
  - apply Qinv_le_0_compat, Qlt_le_weak, Hpos.
Qed.

Lemma X10_witness :
  mileage_curve (60000 # 72000) <= mileage_curve (45000 # 72000).
Proof.
  apply (X10_mileage_score_antitone 2026 Scenarios.scenario_a 45000 60000);
    [lia | lia | vm_compute; reflexivity | vm_compute; reflexivity].
Defined.

Ltac split_zcmp :=
  repeat match goal with
  | |- context [(?a <? ?b)%Z] => destruct (Z.ltb_spec a b)
  | |- context [(?a <=? ?b)%Z] => destruct (Z.leb_spec a b)
  | H : context [(?a <? ?b)%Z] |- _ => destruct (Z.ltb_spec a b)
  | H : context [(?a <=? ?b)%Z] |- _ => destruct (Z.leb_spec a b)
  end.

(** X11: lowering the price never clears the suspicious flag: if a listing
    is suspicious at some price, it is suspicious at every lower price. *)
Theorem X11_suspicious_antitone_in_price :
  forall current_year l p1 p2, (p1 <= p2)%Z ->
    is_suspicious current_year (with_price l p2) = true ->
    is_suspicious current_year (with_price l p1) = true.
Proof.
  intros current_year l p1 p2 H12. unfold is_suspicious, with_price. cbn [l_price l_make l_model l_year].
  destruct (l_make l), (l_model l), (l_year l); cbn [andb]; split_zcmp;
    try reflexivity; try discriminate; lia.
Qed.

Lemma X11_witness :
  is_suspicious 2026 (with_price Scenarios.scenario_a 600) = true.
Proof.
  apply (X11_suspicious_antitone_in_price 2026 Scenarios.scenario_a 600 999);
    [lia | vm_compute; reflexivity].
Defined.

(** X12: a listing with a make, a model and a price of at least 3000 is
    never flagged suspicious, whatever its year. *)
Theorem X12_price_3000_not_suspicious :
  forall current_year l make model price,
    l_make l = Some make -> l_model l = Some model -> l_price l = Some price ->
    (3000 <= price)%Z -> is_suspicious current_year l = false.
Proof.
  intros current_year l make model price Hmk Hmo Hp H. unfold is_suspicious.
  rewrite Hmk, Hmo, Hp. destruct (l_year l); cbn [andb]; split_zcmp; try reflexivity; lia.
Qed.

Lemma X12_witness : is_suspicious 2026 Scenarios.scenario_a = false.
Proof.
  apply (X12_price_3000_not_suspicious 2026 Scenarios.scenario_a "Ford" "Focus" 7500);
    first [reflexivity | lia].
Defined.

Lemma round_half_even_bounds (a b : Z) q :
  inject_Z a <= q <= inject_Z b -> (a <= Py.round_half_even q <= b)%Z.
Proof.
  intros [Ha Hb]. unfold Py.round_half_even. cbv zeta.
  pose proof (Qfloor_resp_le _ _ Ha) as Hfa. rewrite Qfloor_Z in Hfa.
  pose proof (Qfloor_resp_le _ _ Hb) as Hfb. rewrite Qfloor_Z in Hfb.
  pose proof (Qfloor_le q) as Hfl.
  destruct (Z.eq_dec (Qfloor q) b) as [E|E].
  - rewrite E in Hfl |- *.
    destruct (Qcompare _ _) eqn:Ec.
    + apply Qeq_alt in Ec. lra.
    + lia.
    + apply Qgt_alt in Ec. lra.
  - destruct (Qcompare _ _); [destruct (Z.even _)|..]; lia.
Qed.

Lemma round1_bounds (a b : Z) q :
  inject_Z a <= q * 10 <= inject_Z b ->
  inject_Z a / 10 <= Py.round1 q <= inject_Z b / 10.
Proof.
  intros H. apply round_half_even_bounds in H as [Ha Hb].
  unfold Py.round1. rewrite Zle_Qle in Ha, Hb. unfold Qdiv. split.
  - apply Qmult_le_compat_r; [exact Ha | vm_compute; discriminate].
  - apply Qmult_le_compat_r; [exact Hb | vm_compute; discriminate].
Qed.

(** X13: a listing that passes the suspicious check and is scored gets an
    overall score in [10, 96] (the weighted mix of a price score in
    [10, 100] and a mileage score in [10, 90], rounded to one decimal). *)
Theorem X13_unsuspicious_score_bounds :
  forall md current_year l scored,
    is_suspicious current_year l = false ->
    score_listing md current_year l = Some scored ->
    exists s, l_score scored = Some s /\ 10 <= s <= 96.
Proof.
  intros md current_year l scored Hs. unfold score_listing. rewrite Hs.
  destruct (calculate_mileage_score current_year l) as [m|] eqn:E; [|discriminate].
  intros H. injection H as <-. cbn [l_score with_score]. eexists; split; [reflexivity|].
  pose proof (price_score_bounds md current_year l) as Hp.
  pose proof (mileage_score_bounds _ _ _ E) as Hm.
  assert (Hr : inject_Z 100 <= (calculate_price_score md current_year l * 0.6 + m * 0.4) * 10
               <= inject_Z 960) by (unfold inject_Z; lra).
  apply round1_bounds in Hr as [H1 H2].
  split; [eapply Qle_trans; [|exact H1] | eapply Qle_trans; [exact H2|]];
    vm_compute; discriminate.
Qed.

Lemma X13_witness :
  exists s, l_score (default Scenarios.scenario_a
                       (score_listing Scenarios.sample_market_data 2026 Scenarios.scenario_a))
            = Some s /\ 10 <= s <= 96.
Proof.
  apply (X13_unsuspicious_score_bounds Scenarios.sample_market_data 2026 Scenarios.scenario_a);
    vm_compute; reflexivity.
Defined.

(** X14: batch scoring keeps the list's length and order and never changes
    a listing's own data (make, model, year, price, mileage, location, fuel
    type, transmission, matched_to): it only adds score fields. *)
Theorem X14_batch_preserves_listing_data :
  forall md current_year ls,
    map listing_data (batch_score_listings md current_year ls) = map listing_data ls.
Proof.
  intros md current_year ls. induction ls as [|l ls IH]; [reflexivity|].
  simpl. rewrite IH. f_equal. unfold score_listing.
  destruct (is_suspicious current_year l); [reflexivity|].
  destruct (calculate_mileage_score current_year l); reflexivity.
Qed.

End ScoringExtra.

(** ** Matching and its callers *)

Module MatchingExtra.
Import Matching.

Lemma fold_left_inv {A B} (f : A -> B -> A) (P : A -> Prop) (Q : B -> Prop) l a :
  P a -> (forall a b, Q b -> P a -> P (f a b)) -> Forall Q l -> P (fold_left f l a).
Proof.
  intros Ha Hf Hl. revert a Ha. induction Hl as [|b l Hb Hl IH]; intros a Ha; simpl.
  - exact Ha.
  - apply IH, Hf; assumption.
Qed.

Lemma fold_left_filter_skip {A B} (f : A -> B -> A) (keep : B -> bool) l a :
  (forall a b, keep b = false -> f a b = a) ->
  fold_left f l a = fold_left f (filter keep l) a.
Proof.
  intros Hf. revert a. induction l as [|b l IH]; intros a; simpl; [reflexivity|].
  destruct (keep b) eqn:E; simpl.
  - apply IH.
  - rewrite Hf by exact E. apply IH.
Qed.

Lemma extend_user_fst u ms acc :
  map fst (extend_user u ms acc) =
  if existsb (String.eqb u) (map fst acc) then map fst acc else map fst acc ++ [u].
Proof.
  induction acc as [|[u' ms'] acc IH]; simpl; [reflexivity|].
  destruct (String.eqb u u'); simpl; [reflexivity|].
  rewrite IH. destruct (existsb _ _); reflexivity.
Qed.

Lemma extend_user_nodup u ms acc :
  NoDup (map fst acc) -> NoDup (map fst (extend_user u ms acc)).
Proof.
  intros H. rewrite extend_user_fst. destruct (existsb (String.eqb u) (map fst acc)) eqn:E.
  - exact H.
  - apply Permutation_NoDup with (u :: map fst acc); [apply Permutation_cons_append|].
    constructor; [|exact H].
    intros Hin. assert (Hx : existsb (String.eqb u) (map fst acc) = true).
    { apply existsb_exists. exists u. split; [exact Hin | apply String.eqb_refl]. }
    congruence.
Qed.

Lemma extend_user_forall (P : string * list match_ -> Prop) u ms acc :
  (forall ms', P (u, ms') -> P (u, ms' ++ ms)) -> P (u, ms) ->
  Forall P acc -> Forall P (extend_user u ms acc).
Proof.
  intros Hext Hnew Hacc. induction Hacc as [|[u' ms'] acc Hh Ht IH]; simpl.
  - constructor; [exact Hnew | constructor].
  - destruct (String.eqb u u') eqn:E.
    + apply String.eqb_eq in E. subst u'. constructor; [apply Hext, Hh | exact Ht].
    + constructor; [exact Hh | exact IH].
Qed.

Lemma sort_user_matches_perm ms : Permutation ms (sort_user_matches ms).
Proof.
  unfold sort_user_matches. destruct ms as [|m ms]; [reflexivity|].
  destruct (has_score m).
  - exact (proj1 (SortFacts.sorted_stable score_key true _)).
  - exact (proj1 (SortFacts.sorted_stable price_key false _)).
Qed.

Lemma in_find_matches md current_year listings prefs u ms :
  In (u, ms) (find_matches md current_year listings prefs) ->
  exists ms0, In (u, ms0)
    (collect_matches (Scoring.batch_score_listings md current_year listings) prefs) /\
    Permutation ms0 ms.
Proof.
  unfold find_matches. intros H. apply in_map_iff in H as ([u' ms0] & E & Hin).
  injection E as <- <-. exists ms0. split; [exact Hin | apply sort_user_matches_perm].
Qed.

Lemma find_matches_fst md current_year listings prefs :
  map fst (find_matches md current_year listings prefs) =
  map fst (collect_matches (Scoring.batch_score_listings md current_year listings) prefs).
Proof.
  unfold find_matches. rewrite map_map. apply map_ext. intros [u ms]. reflexivity.
Qed.

(** X15: [find_matches] lists each user once, only users with at least one
    match, and only user ids given by some preference. *)
Theorem X15_find_matches_keys :
  forall md current_year listings prefs,
    let result := find_matches md current_year listings prefs in
    NoDup (map fst result) /\
    forall u ms, In (u, ms) result ->
      ms <> [] /\ exists p, In p prefs /\ p_user_id p = Some u.
Proof.
  intros md current_year listings prefs result. subst result.
  set (scored := Scoring.batch_score_listings md current_year listings).
  assert (Hc : NoDup (map fst (collect_matches scored prefs)) /\
               Forall (fun e => snd e <> [] /\ exists p, In p prefs /\ p_user_id p = Some (fst e))
                 (collect_matches scored prefs)).
  { unfold collect_matches.
    apply fold_left_inv with (Q := fun p => In p prefs);
      [split; constructor | | apply Forall_forall; auto].
    intros acc p Hp [Hnd Hall].
    destruct (p_user_id p) as [user_id|] eqn:Hu; [|split; assumption].
    destruct (negb (Py.str_truthy user_id)); [split; assumption|].
    destruct (match_listings_to_preference scored p) as [|m ms] eqn:Em; [split; assumption|].
    split.
    - apply extend_user_nodup, Hnd.
    - apply extend_user_forall; [| |exact Hall].
      + intros ms' [Hne Hex]. split; [|exact Hex].
        destruct ms'; discriminate.
      + split; [discriminate | exists p; split; assumption]. }
  destruct Hc as [Hnd Hall]. split.
  - rewrite find_matches_fst. exact Hnd.
  - intros u ms H. apply in_find_matches in H as (ms0 & Hin & Hperm).
    rewrite Forall_forall in Hall. destruct (Hall _ Hin) as [Hne Hex]. split; [|exact Hex].
    intros ->. apply Permutation_sym, Permutation_nil in Hperm. contradiction.
Qed.

Lemma check_match_true l make model min_year max_year min_price max_price
  location fuel_type transmission d :
  check_match l make model min_year max_year min_price max_price
    location fuel_type transmission = (true, d) ->
  listing_suspicious l = false /\ all_criteria_met d.
Proof.
  unfold check_match.
  destruct (listing_suspicious l); [discriminate|].
  destruct (negb (names_agree make _)); [discriminate|].
  destruct (negb (names_agree model _)); [discriminate|].
  destruct (negb (in_range (l_year l) _ _)); [discriminate|].
  destruct (negb (in_range (l_price l) _ _)); [discriminate|].
  destruct (location_criterion _ _), (soft_field_match fuel_type _),
    (soft_field_match transmission _); try discriminate.
  intros H. injection H as <-. split; [reflexivity|].
  destruct (l_score l); repeat split.
Qed.

Lemma in_match_listings_to_preference ls p m :
  In m (match_listings_to_preference ls p) ->
  In (m_listing m) ls /\ m_user_id m = default EmptyString (p_user_id p) /\
  already_matched (m_listing m) p = false /\
  listing_suspicious (m_listing m) = false /\ all_criteria_met (m_details m).
Proof.
  induction ls as [|l ls IH]; simpl; [contradiction|].
  destruct (already_matched l p) eqn:Ea.
  - intros H. destruct (IH H) as (H1 & H2). split; [right; exact H1 | exact H2].
  - destruct (check_preference l p) as [ok d] eqn:Ec.
    destruct ok.
    + intros [<- | H].
      * unfold check_preference in Ec. apply check_match_true in Ec as [Hs Hd].
        simpl. split; [left; reflexivity|]. split; [reflexivity|].
        split; [exact Ea|]. split; assumption.
      * destruct (IH H) as (H1 & H2). split; [right; exact H1 | exact H2].
    + intros H. destruct (IH H) as (H1 & H2). split; [right; exact H1 | exact H2].
Qed.

(** X16: every match that [find_matches] lists under a user id [u] is a
    copy of a scored listing, carries [user_id = u], was not flagged
    suspicious, was not already matched to [u] (its [matched_to] does not
    contain [u]), and has all seven criteria of its [match_details] set to
    [True]. *)
Theorem X16_find_matches_entries :
  forall md current_year listings prefs u ms m,
    In (u, ms) (find_matches md current_year listings prefs) -> In m ms ->
    In (m_listing m) (Scoring.batch_score_listings md current_year listings) /\
    m_user_id m = u /\
    listing_suspicious (m_listing m) = false /\
    match l_matched_to (m_listing m) with
    | Some mt => Py.contains u mt = false
    | None => True
    end /\
    all_criteria_met (m_details m).
Proof.
  intros md current_year listings prefs u ms m H Hm.
  apply in_find_matches in H as (ms0 & Hin & Hperm).
  apply (Permutation_in _ (Permutation_sym Hperm)) in Hm.
  set (scored := Scoring.batch_score_listings md current_year listings) in *.
  set (Good := fun (e : string * list match_) => forall m, In m (snd e) ->
    In (m_listing m) scored /\ m_user_id m = fst e /\
    listing_suspicious (m_listing m) = false /\
    match l_matched_to (m_listing m) with
    | Some mt => Py.contains (fst e) mt = false
    | None => True
    end /\ all_criteria_met (m_details m)).
  assert (Hc : Forall Good (collect_matches scored prefs)).
  { unfold collect_matches.
    apply fold_left_inv with (Q := fun _ => True);
      [constructor | | apply Forall_forall; auto].
    intros acc p _ Hall.
    destruct (p_user_id p) as [user_id|] eqn:Hu; [|exact Hall].
    destruct (negb (Py.str_truthy user_id)); [exact Hall|].
    destruct (match_listings_to_preference scored p) as [|m0 ms'] eqn:Em; [exact Hall|].
    assert (Hnew : Good (user_id, m0 :: ms')).
    { intros m1 Hm1. cbn [fst snd] in Hm1 |- *. rewrite <- Em in Hm1.
      apply in_match_listings_to_preference in Hm1 as (H1 & H2 & H3 & H4 & H5).
      rewrite Hu in H2. unfold already_matched in H3. rewrite Hu in H3.
      split; [exact H1|]. split; [exact H2|]. split; [exact H4|]. split; [|exact H5].
      destruct (l_matched_to (m_listing m1)); [exact H3 | exact I]. }
    apply extend_user_forall; [| exact Hnew | exact Hall].
    intros ms'' Hold m1 Hm1. simpl in Hm1. apply in_app_or in Hm1 as [Hm1|Hm1].
    - exact (Hold m1 Hm1).
    - exact (Hnew m1 Hm1). }
  rewrite Forall_forall in Hc. exact (Hc _ Hin m Hm).
Qed.

Lemma X16_witness :
  let ms := snd (hd (EmptyString, []) (find_matches Scenarios.sample_market_data 2026
                 [Scenarios.scenario_a] [Scenarios.ford_preference])) in
  In (m_listing (hd (mk_match Scenarios.scenario_a empty_details EmptyString EmptyString) ms))
     (Scoring.batch_score_listings Scenarios.sample_market_data 2026 [Scenarios.scenario_a]) /\
  m_user_id (hd (mk_match Scenarios.scenario_a empty_details EmptyString EmptyString) ms) = "u1"%string /\
  listing_suspicious
    (m_listing (hd (mk_match Scenarios.scenario_a empty_details EmptyString EmptyString) ms)) = false /\
  match l_matched_to
          (m_listing (hd (mk_match Scenarios.scenario_a empty_details EmptyString EmptyString) ms)) with
  | Some mt => Py.contains "u1" mt = false
  | None => True
  end /\
  all_criteria_met
    (m_details (hd (mk_match Scenarios.scenario_a empty_details EmptyString EmptyString) ms)).
Proof.
  intros ms.
  apply (X16_find_matches_entries Scenarios.sample_market_data 2026 [Scenarios.scenario_a]
           [Scenarios.ford_preference] "u1" ms);
    vm_compute; left; reflexivity.
Defined.

(** X17: preferences without a (truthy) [user_id] are skipped: dropping
    them from the input does not change the result of [find_matches]. *)
Theorem X17_find_matches_ignores_preferences_without_user :
  forall md current_year listings prefs,
    find_matches md current_year listings prefs =
    find_matches md current_year listings
      (filter (fun p => match p_user_id p with
                        | Some u => Py.str_truthy u
                        | None => false
                        end) prefs).
Proof.
  intros md current_year listings prefs. unfold find_matches, collect_matches. f_equal.
  apply fold_left_filter_skip. intros acc p H.
  destruct (p_user_id p) as [u|]; [|reflexivity].
  rewrite H. reflexivity.
Qed.

(** X18: a preference that gives only a user id matches, in order, every
    listing that is not flagged suspicious, not already matched to that
    user, and whose year (if set and nonzero) lies in [0, 9999] and whose
    price (if set and nonzero) lies in [0, 9999999]: the default bounds of
    [match_listings_to_preference]. *)
Theorem X18_user_only_preference_matches :
  forall u listings,
    map m_listing (match_listings_to_preference listings (user_only_preference u)) =
    filter (fun l => negb (listing_suspicious l)
                     && negb (already_matched l (user_only_preference u))
                     && in_range (l_year l) 0 9999
                     && in_range (l_price l) 0 9999999) listings.
Proof.
  intros u listings. induction listings as [|l ls IH]; simpl; [reflexivity|].
  destruct (already_matched l (user_only_preference u)) eqn:Ea.
  - rewrite andb_false_r. simpl. exact IH.
  - unfold check_preference, check_match, pref_make, pref_model, pref_min_year,
      pref_max_year, pref_min_price, pref_max_price, pref_location, pref_fuel_type,
      pref_transmission.
    simpl.
    destruct (listing_suspicious l); simpl; [exact IH|].
    destruct (in_range (l_year l) 0 9999); simpl; [|exact IH].
    destruct (in_range (l_price l) 0 9999999); simpl; [|exact IH].
    f_equal. exact IH.
Qed.

(** X19: the empty-input guard of [ScraperManager.match_listings_to_preferences]
    changes nothing: it always returns what [find_matches] returns. *)
Theorem X19_manager_matching_is_find_matches :
  forall md current_year listings prefs,
    Callers.match_listings_to_preferences md current_year listings prefs =
    find_matches md current_year listings prefs.
Proof.
  intros md current_year listings prefs. unfold Callers.match_listings_to_preferences.
  destruct listings as [|l ls]; [|destruct prefs; reflexivity].
  unfold find_matches, collect_matches. simpl Scoring.batch_score_listings.
  rewrite fold_left_filter_skip with (keep := fun _ => false).
  - replace (filter (fun _ : preference => false) prefs) with (@nil preference)
      by (induction prefs; simpl; auto).
    reflexivity.
  - intros acc p _. destruct (p_user_id p); [|reflexivity].
    destruct (negb _); reflexivity.
Qed.

End MatchingExtra.

Module CallersExtra.
Import Callers.

Lemma py_take_firstn {A} (xs : list A) n : exists k, py_take xs n = firstn k xs.
Proof. unfold py_take. destruct (0 <=? n)%Z; eexists; reflexivity. Qed.

Lemma in_firstn {A} k (l : list A) x : In x (firstn k l) -> In x l.
Proof.
  intros H. rewrite <- (firstn_skipn k l). apply in_or_app. left. exact H.
Qed.

Lemma Sorted_firstn {A} (R : A -> A -> Prop) k l : Sorted R l -> Sorted R (firstn k l).
Proof.
  revert k. induction l as [|a l IH]; intros k H; destruct k as [|k]; simpl;
    [constructor | constructor | constructor |].
  apply Sorted_inv in H as [Hs Hh]. constructor; [apply IH, Hs|].
  destruct k as [|k]; [constructor|]. destruct l as [|b l]; [constructor|].
  simpl. constructor. inversion Hh. assumption.
Qed.

Lemma Sorted_weaken {A} (R R' : A -> A -> Prop) l :
  (forall a b, R a b -> R' a b) -> Sorted R l -> Sorted R' l.
Proof.
  intros HR H. induction H as [|a l Hs IH Hh]; constructor; [exact IH|].
  destruct Hh; constructor. apply HR. assumption.
Qed.

Lemma in_process_deals md current_year listings max_deals d :
  In d (process_deals md current_year listings max_deals) ->
  In d (score_unscored md current_year listings) /\ Matching.listing_suspicious d = false.
Proof.
  unfold process_deals. destruct (py_take_firstn
    (Py.sorted (fun l => default 0 (l_score l)) true
       (filter (fun l => negb (Matching.listing_suspicious l))
          (score_unscored md current_year listings))) max_deals) as [k ->].
  intros H. apply in_firstn in H.
  apply (Permutation_in _ (Permutation_sym
           (proj1 (SortFacts.sorted_stable (fun l => default 0 (l_score l)) true _)))) in H.
  apply filter_In in H as [H1 H2]. split; [exact H1|].
  destruct (Matching.listing_suspicious d); [discriminate | reflexivity].
Qed.

(** X20: for a non-negative [max_deals], [_process_deals] returns at most
    [max_deals] listings, none flagged suspicious, ordered by score from
    highest to lowest. *)
Theorem X20_process_deals_shape :
  forall md current_year listings max_deals,
    (0 <= max_deals)%Z ->
    let deals := process_deals md current_year listings max_deals in
    (length deals <= Z.to_nat max_deals)%nat /\
    Forall (fun d => Matching.listing_suspicious d = false) deals /\
    Sorted (fun a b => default 0 (l_score b) <= default 0 (l_score a)) deals.
Proof.
  intros md current_year listings max_deals Hn deals. subst deals.
  split; [|split].
  - unfold process_deals, py_take. apply Z.leb_le in Hn. rewrite Hn. apply firstn_le_length.
  - apply Forall_forall. intros d Hd. exact (proj2 (in_process_deals _ _ _ _ _ Hd)).
  - unfold process_deals.
    set (xs := filter _ _).
    destruct (py_take_firstn (Py.sorted (fun l => default 0 (l_score l)) true xs) max_deals)
      as [k ->].
    apply Sorted_firstn.
    apply Sorted_weaken with (R := fun a b =>
      Py.before (fun l => default 0 (l_score l)) true a b = true).
    + intros a b H. unfold Py.before in H. apply Qle_bool_iff in H. exact H.
    + exact (proj1 (proj2 (SortFacts.sorted_stable (fun l => default 0 (l_score l)) true xs))).
Qed.

Lemma X20_witness :
  let deals := process_deals Scenarios.sample_market_data 2026 Scenarios.mixed_listings 1 in
  (length deals <= Z.to_nat 1)%nat /\
  Forall (fun d => Matching.listing_suspicious d = false) deals /\
  Sorted (fun a b => default 0 (l_score b) <= default 0 (l_score a)) deals.
Proof.
  apply (X20_process_deals_shape Scenarios.sample_market_data 2026 Scenarios.mixed_listings 1).
  lia.
Defined.

(** X21: every deal [_process_deals] returns has a score and comes from an
    input listing: either that listing itself, when it already had a
    score, or the result of [score_listing] on it, when it had none.
    Listings whose scoring raises are dropped. *)
Theorem X21_process_deals_provenance :
  forall md current_year listings max_deals d,
    In d (process_deals md current_year listings max_deals) ->
    l_score d <> None /\
    exists l, In l listings /\
      ((l_score l <> None /\ d = l) \/
       (l_score l = None /\ Scoring.score_listing md current_year l = Some d)).
Proof.
  intros md current_year listings max_deals d H.
  apply in_process_deals in H as [H _].
  unfold score_unscored in H. apply in_flat_map in H as (l & Hl & Hd).
  destruct (l_score l) as [s|] eqn:Es.
  - destruct Hd as [<- | []]. split; [congruence|].
    exists l. split; [exact Hl | left; split; [congruence | reflexivity]].
  - destruct (Scoring.score_listing md current_year l) as [scored|] eqn:Esc; [|contradiction].
    destruct Hd as [<- | []]. split.
    + unfold Scoring.score_listing in Esc.
      destruct (Scoring.is_suspicious current_year l).
      * injection Esc as <-. discriminate.
      * destruct (Scoring.calculate_mileage_score current_year l); [|discriminate].
        injection Esc as <-. discriminate.
    + exists l. split; [exact Hl | right; split; assumption].
Qed.

Lemma X21_witness :
  l_score (hd Scenarios.scenario_a
             (process_deals Scenarios.sample_market_data 2026 [Scenarios.scenario_a] 5)) <> None /\
  exists l, In l [Scenarios.scenario_a] /\
    ((l_score l <> None /\
      hd Scenarios.scenario_a
        (process_deals Scenarios.sample_market_data 2026 [Scenarios.scenario_a] 5) = l) \/
     (l_score l = None /\
      Scoring.score_listing Scenarios.sample_market_data 2026 l =
        Some (hd Scenarios.scenario_a
                (process_deals Scenarios.sample_market_data 2026 [Scenarios.scenario_a] 5)))).
Proof.
  apply (X21_process_deals_provenance Scenarios.sample_market_data 2026 [Scenarios.scenario_a] 5).
  vm_compute. left. reflexivity.
Defined.

End CallersExtra.
